(** * Session and message relay of the chat server (chat-app/server.js)

    A shallow embedding of the Socket.IO event handlers of
    [chat-app/server.js] ([user_login], [send_message], [user_typing],
    [user_stopped_typing], [disconnect], [ping]) and of the second server
    variant found next to [whatsapp-clone-chat/public/client.js]
    ([join]), together with the properties of the relay engine.

    Conventions of the embedding:
    - a JavaScript string is a [string]: the sequence of its code units,
      for code units below 256;
    - a JavaScript [Map] is an insertion-ordered association list
      ([JsMap]), because [Array.from(users.values())] exposes the order;
    - the three process-wide variables [users], [userSessions] and
      [messageHistory] are fields of [World]; the sockets currently
      connected (kept by Socket.IO, not by the program) are the field
      [sockets]; everything the handlers emit is appended to [outbox],
      each emission with the sockets that receive it;
    - a handler is a computation in the monad [M], which threads the
      world and distinguishes normal completion, an early [return] and a
      thrown exception (the mutations made before a throw persist);
    - [Date] and [Math.random] are read from an [Env] given to the handler;
    - console output is not modelled, except that evaluating the argument
      of a [console.log] may throw. *)

From Stdlib Require Import List String Ascii Bool ZArith NArith Arith Lia.
From Stdlib Require Import DecimalString.
Import ListNotations.

Local Open Scope string_scope.
Local Open Scope list_scope.

(** ** JavaScript values carried by Socket.IO payloads *)

#[local] Set Warnings "-register-all".

Inductive value : Type :=
| VUndefined
| VNull
| VBool (b : bool)
| VNum (z : Z)
| VStr (s : string)
| VObj (fields : list (string * value)).

(** [ToBoolean]: what [if (x)], [!x] and [x || y] test. *)
Definition truthy (v : value) : bool :=
  match v with
  | VUndefined | VNull => false
  | VBool b => b
  | VNum z => negb (Z.eqb z 0)
  | VStr s => negb (String.eqb s "")
  | VObj _ => true
  end.

Definition nullish (v : value) : bool :=
  match v with
  | VUndefined | VNull => true
  | _ => false
  end.

Fixpoint lookup_field (k : string) (fs : list (string * value)) : value :=
  match fs with
  | [] => VUndefined
  | (k', v) :: fs' => if String.eqb k k' then v else lookup_field k fs'
  end.

(** Property read [v.k] on a value that is not [null] or [undefined];
    the primitives have none of the fields the handlers read. *)
Definition get_field (v : value) (k : string) : value :=
  match v with
  | VObj fs => lookup_field k fs
  | _ => VUndefined
  end.

(** [a || b] *)
Definition js_or (a b : value) : value := if truthy a then a else b.

(** ** Strings *)

(** White space and line terminators stripped by [String.prototype.trim],
    among the code units below 256: TAB, LF, VT, FF, CR, SP, NBSP. *)
Definition is_white_space (c : ascii) : bool :=
  match N_of_ascii c with
  | 9%N | 10%N | 11%N | 12%N | 13%N | 32%N | 160%N => true
  | _ => false
  end.

Fixpoint trim_start (s : string) : string :=
  match s with
  | EmptyString => EmptyString
  | String c s' => if is_white_space c then trim_start s' else s
  end.

Fixpoint trim_end (s : string) : string :=
  match s with
  | EmptyString => EmptyString
  | String c s' =>
      match trim_end s' with
      | EmptyString => if is_white_space c then EmptyString
                       else String c EmptyString
      | t => String c t
      end
  end.

Definition trim (s : string) : string := trim_end (trim_start s).

(** Decimal rendering of a non-negative integer in a template literal. *)
Definition decimal (n : N) : string := NilZero.string_of_uint (N.to_uint n).

(** ** Arrays *)

(** [arr.slice(start)] with one argument: a negative [start] counts from
    the end, and the start index is clamped to [0, length]. *)
Definition slice {A : Type} (start : Z) (arr : list A) : list A :=
  let len := Z.of_nat (List.length arr) in
  let k := if (start <? 0)%Z then Z.max (len + start) 0
           else Z.min start len in
  skipn (Z.to_nat k) arr.

(** [arr.push(x)] *)
Definition push {A : Type} (x : A) (arr : list A) : list A := arr ++ [x].

(** [arr.shift()] (the array that remains) *)
Definition shift {A : Type} (arr : list A) : list A := tl arr.

(** ** Insertion-ordered maps with string keys ([new Map()]) *)

Module JsMap.
Section Ops.
Context {V : Type}.

Definition t := list (string * V).

Definition empty : t := [].

Fixpoint get (k : string) (m : t) : option V :=
  match m with
  | [] => None
  | (k', v) :: m' => if String.eqb k k' then Some v else get k m'
  end.

Definition has (k : string) (m : t) : bool :=
  match get k m with Some _ => true | None => false end.

(** [m.set(k, v)]: an existing key keeps its position, a new key goes
    last. *)
Fixpoint set (k : string) (v : V) (m : t) : t :=
  match m with
  | [] => [(k, v)]
  | (k', v') :: m' =>
      if String.eqb k k' then (k, v) :: m' else (k', v') :: set k v m'
  end.

Fixpoint delete (k : string) (m : t) : t :=
  match m with
  | [] => []
  | (k', v') :: m' =>
      if String.eqb k k' then delete k m' else (k', v') :: delete k m'
  end.

Definition size (m : t) : nat := List.length m.

Definition values (m : t) : list V := map snd m.

Definition keys (m : t) : list string := map fst m.
End Ops.
Arguments t : clear implicits.
End JsMap.

(** ** Records of chat-app/server.js *)

Module User.
Record t : Type := mk {
  id : string;
  username : string;
  publicKey : value;
  socketId : string;
  connectedAt : N
}.
End User.

Module Sender.
Record t : Type := mk {
  id : string;
  username : value
}.
End Sender.

Module Message.
Record t : Type := mk {
  id : string;
  sender : Sender.t;
  encryptedMessage : value;
  timestamp : string;
  type : string
}.
End Message.

(** Entry of the [online_users] list: [{ id, username, publicKey }]. *)
Module OnlineUser.
Record t : Type := mk {
  id : string;
  username : string;
  publicKey : value
}.
End OnlineUser.

(** ** Emissions *)

(** The four ways the handlers address an emission. *)
Inductive Target : Type :=
| IoEmit                          (* io.emit(...) *)
| SocketEmit (sid : string)       (* socket.emit(...) *)
| BroadcastEmit (sid : string)    (* socket.broadcast.emit(...) *)
| IoTo (room : string).           (* io.to(room).emit(...) *)

Inductive Event : Type :=
| error (message : string)
| user_connected (userId : string) (username : value)
                 (timestamp : string) (totalUsers : nat)
| online_users (users : list OnlineUser.t)
| message_history (messages : list Message.t)
| receive_message (m : Message.t)
| message_sent (messageId : string) (timestamp : string)
| user_typing (userId : string) (username : string)
| user_stopped_typing (userId : string)
| user_disconnected (userId : string) (username : string)
                    (timestamp : string) (totalUsers : nat)
| pong.

Record Emission : Type := mkEmission {
  target : Target;
  receivers : list string;
  event : Event
}.

(** Socket.IO delivery: [io.emit] reaches every connected socket,
    [socket.emit] the socket itself, [socket.broadcast.emit] every
    connected socket but the socket itself, and [io.to(room)] the sockets
    in the room; a socket is in the room named by its own id and the
    program joins no other room. *)
Definition resolve (sockets : list string) (t : Target) : list string :=
  match t with
  | IoEmit => sockets
  | SocketEmit sid => [sid]
  | BroadcastEmit sid => filter (fun s => negb (String.eqb s sid)) sockets
  | IoTo room => filter (fun s => String.eqb s room) sockets
  end.

(** ** The world: the process-wide state and what has been emitted *)

Record World : Type := mkWorld {
  sockets : list string;
  users : JsMap.t User.t;
  userSessions : JsMap.t string;
  messageHistory : list Message.t;
  outbox : list Emission
}.

Definition init : World := mkWorld [] JsMap.empty JsMap.empty [] [].

(** Readings of [Date] and [Math.random] during one handler call. *)
Record Env : Type := mkEnv {
  date_now : N;              (* Date.now(), new Date() *)
  date_iso : string;         (* new Date().toISOString() *)
  random36 : string          (* Math.random().toString(36) *)
}.

(** ** The handler monad *)

Inductive Exn : Type :=
| TypeError (what : string).

Inductive Outcome (A : Type) : Type :=
| Normal (a : A)
| Returned
| Thrown (e : Exn).
Arguments Normal {A} a.
Arguments Returned {A}.
Arguments Thrown {A} e.

Definition M (A : Type) : Type := World -> Outcome A * World.

Definition ret {A : Type} (a : A) : M A := fun w => (Normal a, w).

Definition bind {A B : Type} (m : M A) (k : A -> M B) : M B :=
  fun w =>
    match m w with
    | (Normal a, w') => k a w'
    | (Returned, w') => (Returned, w')
    | (Thrown e, w') => (Thrown e, w')
    end.

Declare Scope handler_scope.
Delimit Scope handler_scope with handler.
Notation "x <- m ;; k" := (bind m (fun x => k))
  (at level 61, m at next level, right associativity) : handler_scope.
Notation "m ;; k" := (bind m (fun _ => k))
  (at level 61, right associativity) : handler_scope.
Local Open Scope handler_scope.

(** [return;] *)
Definition return_ {A : Type} : M A := fun w => (Returned, w).

Definition throw {A : Type} (e : Exn) : M A := fun w => (Thrown e, w).

Definition read {A : Type} (f : World -> A) : M A := fun w => (Normal (f w), w).

Definition emit (t : Target) (e : Event) : M unit :=
  fun w =>
    (Normal tt,
     mkWorld (sockets w) (users w) (userSessions w) (messageHistory w)
             (outbox w ++ [mkEmission t (resolve (sockets w) t) e])).

Definition set_users (f : JsMap.t User.t -> JsMap.t User.t) : M unit :=
  fun w =>
    (Normal tt,
     mkWorld (sockets w) (f (users w)) (userSessions w) (messageHistory w)
             (outbox w)).

Definition set_userSessions (f : JsMap.t string -> JsMap.t string) : M unit :=
  fun w =>
    (Normal tt,
     mkWorld (sockets w) (users w) (f (userSessions w)) (messageHistory w)
             (outbox w)).

Definition set_messageHistory (f : list Message.t -> list Message.t) : M unit :=
  fun w =>
    (Normal tt,
     mkWorld (sockets w) (users w) (userSessions w) (f (messageHistory w))
             (outbox w)).

(** [if (c) { body }] with no else branch. *)
Definition when (c : bool) (body : M unit) : M unit :=
  if c then body else ret tt.

(** [const { ... } = data]: destructuring [null] or [undefined] throws. *)
Definition destructure (data : value) : M value :=
  if nullish data then throw (TypeError "Cannot destructure")
  else ret data.

(** [v.trim()]: only a string has the method. *)
Definition call_trim (v : value) : M string :=
  match v with
  | VStr s => ret (trim s)
  | _ => throw (TypeError "trim is not a function")
  end.

(** [v.substring(0, 20)]: only a string has the method. *)
Definition call_substring (v : value) (a b : nat) : M string :=
  match v with
  | VStr s => ret (substring a (b - a) s)
  | _ => throw (TypeError "substring is not a function")
  end.

(** [users.get(k)] for an arbitrary value [k]: the keys are strings. *)
Definition users_get (k : value) (m : JsMap.t User.t) : option User.t :=
  match k with
  | VStr s => JsMap.get s m
  | _ => None
  end.

(** Truthiness of the result of [userSessions.get(...)]. *)
Definition truthy_id (o : option string) : bool :=
  match o with
  | Some s => negb (String.eqb s "")
  | None => false
  end.

(** ** The event handlers of chat-app/server.js

    Each handler is the body of [socket.on('<event>', ...)] for the socket
    whose id is [socket_id]. *)

Definition on_user_login (socket_id : string) (env : Env) (data : value)
  : M unit :=
  _ <- destructure data ;;
  let username := get_field data "username" in
  let publicKey := get_field data "publicKey" in
  when (negb (truthy username) || negb (truthy publicKey))
       (emit (SocketEmit socket_id)
             (error "Username and public key required") ;;
        return_) ;;
  let userId := socket_id in
  trimmed <- call_trim username ;;
  let user := User.mk userId trimmed publicKey socket_id (date_now env) in
  set_users (JsMap.set userId user) ;;
  set_userSessions (JsMap.set socket_id userId) ;;
  (* Notify all clients about new user *)
  totalUsers <- read (fun w => JsMap.size (users w)) ;;
  emit IoEmit (user_connected userId username (date_iso env) totalUsers) ;;
  (* Send current online users to the new user *)
  us <- read (fun w => JsMap.values (users w)) ;;
  emit (SocketEmit socket_id)
       (online_users
          (map (fun u => OnlineUser.mk (User.id u) (User.username u)
                                       (User.publicKey u)) us)) ;;
  (* Send message history to new user *)
  history <- read messageHistory ;;
  emit (SocketEmit socket_id) (message_history (slice (-30) history)).

(** The [messageObj] literal of [send_message]. *)
Definition messageObj (env : Env) (senderId : string) (sender : User.t)
    (senderUsername encryptedMessage : value) : Message.t :=
  Message.mk
    ("msg_" ++ decimal (date_now env) ++ "_"
       ++ substring 2 9 (random36 env))
    (Sender.mk senderId (js_or senderUsername (VStr (User.username sender))))
    encryptedMessage
    (date_iso env)
    "direct".

Definition on_send_message (socket_id : string) (env : Env) (data : value)
  : M unit :=
  _ <- destructure data ;;
  let encryptedMessage := get_field data "encryptedMessage" in
  let recipientId := get_field data "recipientId" in
  let senderUsername := get_field data "senderUsername" in
  senderId <- read (fun w => JsMap.get socket_id (userSessions w)) ;;
  when (negb (truthy_id senderId))
       (emit (SocketEmit socket_id) (error "User not authenticated") ;;
        return_) ;;
  let senderId := match senderId with Some s => s | None => "" end in
  sender <- read (fun w => JsMap.get senderId (users w)) ;;
  match sender with
  | None =>
      emit (SocketEmit socket_id) (error "Sender not found") ;;
      return_
  | Some sender =>
      let m := messageObj env senderId sender senderUsername
                          encryptedMessage in
      (* Store message history *)
      set_messageHistory (push m) ;;
      len <- read (fun w => List.length (messageHistory w)) ;;
      when (100 <? len)%nat (set_messageHistory shift) ;;
      (if truthy recipientId then
         (* Send to specific recipient if direct message *)
         recipient <- read (fun w => users_get recipientId (users w)) ;;
         match recipient with
         | Some recipient =>
             emit (IoTo (User.socketId recipient)) (receive_message m) ;;
             emit (SocketEmit socket_id)
                  (message_sent (Message.id m) (Message.timestamp m))
         | None =>
             emit (SocketEmit socket_id) (error "Recipient not found")
         end
       else
         (* Broadcast to all users (group message) *)
         emit IoEmit (receive_message m) ;;
         emit (SocketEmit socket_id)
              (message_sent (Message.id m) (Message.timestamp m))) ;;
      (* console.log(`... ${encryptedMessage.substring(0, 20)}...`) *)
      _ <- call_substring encryptedMessage 0 20 ;;
      ret tt
  end.

Definition on_user_typing (socket_id : string) : M unit :=
  senderId <- read (fun w => JsMap.get socket_id (userSessions w)) ;;
  when (truthy_id senderId)
       (let senderId := match senderId with Some s => s | None => "" end in
        sender <- read (fun w => JsMap.get senderId (users w)) ;;
        match sender with
        | Some sender =>
            emit (BroadcastEmit socket_id)
                 (user_typing senderId (User.username sender))
        | None => throw (TypeError "Cannot read properties of undefined")
        end).

Definition on_user_stopped_typing (socket_id : string) : M unit :=
  senderId <- read (fun w => JsMap.get socket_id (userSessions w)) ;;
  when (truthy_id senderId)
       (let senderId := match senderId with Some s => s | None => "" end in
        emit (BroadcastEmit socket_id) (user_stopped_typing senderId)).

Definition on_disconnect (socket_id : string) (env : Env) : M unit :=
  userId <- read (fun w => JsMap.get socket_id (userSessions w)) ;;
  when (truthy_id userId)
       (let userId := match userId with Some s => s | None => "" end in
        user <- read (fun w => JsMap.get userId (users w)) ;;
        match user with
        | Some user =>
            set_users (JsMap.delete userId) ;;
            (* Notify all clients about user disconnection *)
            totalUsers <- read (fun w => JsMap.size (users w)) ;;
            emit IoEmit (user_disconnected userId (User.username user)
                                           (date_iso env) totalUsers)
        | None => ret tt
        end ;;
        set_userSessions (JsMap.delete socket_id)).

Definition on_ping (socket_id : string) : M unit :=
  emit (SocketEmit socket_id) pong.

(** ** The server as a transition system *)

(** What the transport delivers to the server. *)
Inductive Request : Type :=
| Connect (sid : string)
| UserLogin (sid : string) (env : Env) (data : value)
| SendMessage (sid : string) (env : Env) (data : value)
| UserTyping (sid : string)
| UserStoppedTyping (sid : string)
| Ping (sid : string)
| Disconnect (sid : string) (env : Env).

Definition connected (sid : string) (w : World) : bool :=
  existsb (String.eqb sid) (sockets w).

Definition set_sockets (f : list string -> list string) (w : World) : World :=
  mkWorld (f (sockets w)) (users w) (userSessions w) (messageHistory w)
          (outbox w).

(** The sockets other than [sid]. *)
Definition without (sid : string) (l : list string) : list string :=
  filter (fun s => negb (String.eqb s sid)) l.

(** The world a handler leaves behind, whether it completes, returns early
    or throws: the process-level [uncaughtException] listener only logs. *)
Definition after (h : M unit) (w : World) : World := snd (h w).

(** Did the handler throw? *)
Definition throws (h : M unit) (w : World) : bool :=
  match fst (h w) with
  | Thrown _ => true
  | _ => false
  end.

(** Socket.IO gives each connection a fresh, non-empty id and runs a
    socket's listeners only while the socket is connected; on
    disconnection the socket has left the namespace when the [disconnect]
    listener runs. *)
Definition step (w : World) (r : Request) : World :=
  match r with
  | Connect sid =>
      if String.eqb sid "" || connected sid w then w
      else set_sockets (fun l => l ++ [sid]) w
  | UserLogin sid env data =>
      if connected sid w then after (on_user_login sid env data) w else w
  | SendMessage sid env data =>
      if connected sid w then after (on_send_message sid env data) w else w
  | UserTyping sid =>
      if connected sid w then after (on_user_typing sid) w else w
  | UserStoppedTyping sid =>
      if connected sid w then after (on_user_stopped_typing sid) w else w
  | Ping sid =>
      if connected sid w then after (on_ping sid) w else w
  | Disconnect sid env =>
      if connected sid w then
        after (on_disconnect sid env) (set_sockets (without sid) w)
      else w
  end.

Definition run (w : World) (rs : list Request) : World := fold_left step rs w.

Definition reachable (w : World) : Prop := exists rs, w = run init rs.

(** ** The second server variant (the one served with
    whatsapp-clone-chat/public/client.js)

    Its registry maps the socket id to the user name as received. Only the
    [join] listener is embedded; the [message] text of [user_joined] is a
    function of the user name and is left out of the event. *)

Module Clone.

Inductive Event : Type :=
| user_joined (username : value)
| user_count (n : nat).

Record Emission : Type := mkEmission {
  target : Target;
  receivers : list string;
  event : Event
}.

Record World : Type := mkWorld {
  sockets : list string;
  users : JsMap.t value;
  outbox : list Emission
}.

Definition emit (t : Target) (e : Event) (w : World) : World :=
  mkWorld (sockets w) (users w)
          (outbox w ++ [mkEmission t (resolve (sockets w) t) e]).

Definition on_join (socket_id : string) (username : value) (w : World)
  : World :=
  let w1 := mkWorld (sockets w) (JsMap.set socket_id username (users w))
                    (outbox w) in
  let w2 := emit (BroadcastEmit socket_id) (user_joined username) w1 in
  emit IoEmit (user_count (JsMap.size (users w2))) w2.

End Clone.

(** * Summaries, invariant and scenarios

    Closed forms of what the handlers leave behind, the invariant of the
    reachable worlds, the predicates of the statements below and the
    concrete worlds they are tried on. *)

Definition with_outbox (w : World) (es : list Emission) : World :=
  mkWorld (sockets w) (users w) (userSessions w) (messageHistory w)
          (outbox w ++ es).

Definition to_socket (sid : string) (e : Event) : Emission :=
  mkEmission (SocketEmit sid) [sid] e.

Definition to_all (w : World) (e : Event) : Emission :=
  mkEmission IoEmit (sockets w) e.

Definition online_user (u : User.t) : OnlineUser.t :=
  OnlineUser.mk (User.id u) (User.username u) (User.publicKey u).

(** The three emissions of an accepted [user_login], in order. *)
Definition login_emissions (sid : string) (env : Env) (username : value)
    (us : JsMap.t User.t) (w : World) : list Emission :=
  [ to_all w (user_connected sid username (date_iso env) (JsMap.size us));
    to_socket sid (online_users (map online_user (JsMap.values us)));
    to_socket sid (message_history (slice (-30) (messageHistory w))) ].

Definition login_world (sid : string) (env : Env) (s : string) (pk : value)
    (w : World) : World :=
  let us := JsMap.set sid (User.mk sid (trim s) pk sid (date_now env))
                      (users w) in
  mkWorld (sockets w) us (JsMap.set sid sid (userSessions w))
          (messageHistory w)
          (outbox w ++ login_emissions sid env (VStr s) us w).

(** History after [push] and the conditional [shift]. *)
Definition store (m : Message.t) (h : list Message.t) : list Message.t :=
  if (100 <? List.length (push m h))%nat then shift (push m h) else push m h.

(** The emissions of [send_message] once the message is stored. *)
Definition deliveries (sid : string) (recipientId : value) (m : Message.t)
    (w : World) : list Emission :=
  if truthy recipientId then
    match users_get recipientId (users w) with
    | Some recipient =>
        [ mkEmission (IoTo (User.socketId recipient))
                     (resolve (sockets w) (IoTo (User.socketId recipient)))
                     (receive_message m);
          to_socket sid (message_sent (Message.id m) (Message.timestamp m)) ]
    | None => [ to_socket sid (error "Recipient not found") ]
    end
  else
    [ to_all w (receive_message m);
      to_socket sid (message_sent (Message.id m) (Message.timestamp m)) ].

Definition sent_world (sid : string) (recipientId : value) (m : Message.t)
    (w : World) : World :=
  mkWorld (sockets w) (users w) (userSessions w)
          (store m (messageHistory w))
          (outbox w ++ deliveries sid recipientId m w).

Definition is_string (v : value) : bool :=
  match v with VStr _ => true | _ => false end.

Ltac run_handler :=
  cbv [bind ret return_ throw read emit when destructure call_trim
       call_substring set_users set_userSessions set_messageHistory
       with_outbox to_socket to_all resolve].

Record wf (w : World) : Prop := mk_wf {
  wf_sessions :
    forall sid v, JsMap.get sid (userSessions w) = Some v -> v = sid;
  wf_users_connected :
    forall k u, JsMap.get k (users w) = Some u -> In k (sockets w);
  wf_users_session :
    forall k u, JsMap.get k (users w) = Some u ->
                JsMap.get k (userSessions w) = Some k;
  wf_users_id :
    forall k u, JsMap.get k (users w) = Some u ->
                User.id u = k /\ User.socketId u = k;
  wf_users_keys : NoDup (JsMap.keys (users w));
  wf_socket_ids : ~ In "" (sockets w);
  wf_history : List.length (messageHistory w) <= 100
}.

(** Two worlds with the same program state and connected sockets. *)
Definition same_state (w w' : World) : Prop :=
  sockets w' = sockets w /\ users w' = users w /\
  userSessions w' = userSessions w /\ messageHistory w' = messageHistory w.

Definition disconnected_world (sid : string) (env : Env) (w : World) : World :=
  match JsMap.get sid (users w) with
  | Some user =>
      let us := JsMap.delete sid (users w) in
      mkWorld (sockets w) us (JsMap.delete sid (userSessions w))
              (messageHistory w)
              (outbox w ++
                 [to_all w (user_disconnected sid (User.username user)
                                              (date_iso env) (JsMap.size us))])
  | None =>
      mkWorld (sockets w) (users w) (JsMap.delete sid (userSessions w))
              (messageHistory w) (outbox w)
  end.

Definition env0 : Env :=
  mkEnv 1700000000000 "2023-11-14T22:13:20.000Z" "0.4fzyo82mvyr".

Definition env1 : Env :=
  mkEnv 1700000001000 "2023-11-14T22:13:21.000Z" "0.k3x9q0a7c1d".

Definition login_data (name key : string) : value :=
  VObj [("username", VStr name); ("publicKey", VStr key)].

(** One socket ["A"] connected and logged in as alice. *)
Definition alice_online : World :=
  run init [Connect "A"; UserLogin "A" env0 (login_data "alice" "pk-a")].

(** Sockets ["A"] and ["B"] connected, only ["A"] logged in. *)
Definition alice_and_guest : World :=
  run init [Connect "A"; Connect "B";
            UserLogin "A" env0 (login_data "alice" "pk-a")].

(** The handler answered with an [error] to the originating socket alone
    and returned. *)
Definition rejected (sid : string) (h : M unit) (w : World) : Prop :=
  exists msg, h w = (Returned, with_outbox w [to_socket sid (error msg)]).

(** Follows the spec's words ("most recent [limit], oldest-first"): the
    last [limit] entries of the history, in the order of the history; it is
    compared below with [slice], which is what the code evaluates. *)
Definition recentHistory_spec {A : Type} (limit : nat) (h : list A) : list A :=
  skipn (List.length h - limit) h.

(** A send that ran to completion. *)
Definition successful_send (sid : string) (env : Env) (data : value)
    (w : World) : Prop :=
  fst (on_send_message sid env data w) = Normal tt.

(** The message [send_message] builds for a sender registered in [w]. *)
Definition message_of (w : World) (sid : string) (env : Env) (data : value)
  : option Message.t :=
  match JsMap.get sid (users w) with
  | Some u => Some (messageObj env sid u (get_field data "senderUsername")
                               (get_field data "encryptedMessage"))
  | None => None
  end.

Definition text_to (recipient : string) (text : string) : value :=
  VObj [("encryptedMessage", VStr text); ("recipientId", VStr recipient)].

Definition text_to_all (text : string) : value :=
  VObj [("encryptedMessage", VStr text)].

(** Successive sends, each running to completion in the world left by the
    previous one. *)
Fixpoint all_successful (w : World) (reqs : list (string * Env * value))
  : Prop :=
  match reqs with
  | [] => True
  | (sid, env, data) :: rest =>
      successful_send sid env data w /\
      all_successful (after (on_send_message sid env data) w) rest
  end.

Definition send_request (r : string * Env * value) : Request :=
  let '(sid, env, data) := r in SendMessage sid env data.

(** The messages built by the requests, in send order. *)
Fixpoint sent_messages (w : World) (reqs : list (string * Env * value))
  : list Message.t :=
  match reqs with
  | [] => []
  | (sid, env, data) :: rest =>
      match message_of w sid env data with
      | Some m => m :: sent_messages w rest
      | None => sent_messages w rest
      end
  end.

(** 101 broadcasts of alice, told apart by the clock. *)
Definition hundred_and_one_sends : list (string * Env * value) :=
  map (fun n => ("A", mkEnv (N.of_nat n) "2023-11-14T22:13:20.000Z" "0.4f",
                 text_to_all "hi"))
      (seq 1 101).

(** Forty messages in the history of a world where ["B"] is connected. *)
Definition forty_messages : World :=
  run alice_and_guest
      (map send_request (firstn 40 hundred_and_one_sends)).

(** ** Further invariants and closed forms *)

(** What the reachable worlds satisfy besides [wf]: a session entry always
    has its user record, and the connected sockets are pairwise distinct. *)
Record registry_inv (w : World) : Prop := mk_registry_inv {
  inv_session_user :
    forall sid v, JsMap.get sid (userSessions w) = Some v ->
                  exists u, JsMap.get sid (users w) = Some u;
  inv_sockets_nodup : NoDup (sockets w)
}.

(** No [error] event is addressed to anyone but the socket whose request
    caused it. *)
Definition errors_private (es : list Emission) : Prop :=
  forall e msg, In e es -> event e = error msg ->
    exists sid, target e = SocketEmit sid /\ receivers e = [sid].

(** An emission of [socket.broadcast.emit]. *)
Definition to_others (sid : string) (w : World) (e : Event) : Emission :=
  mkEmission (BroadcastEmit sid) (without sid (sockets w)) e.

(** The events a socket receives from a list of emissions, in order. *)
Definition inbox (sid : string) (es : list Emission) : list Event :=
  map event (filter (fun e => existsb (String.eqb sid) (receivers e)) es).

(** ** The HTTP read endpoints of chat-app/server.js *)

(** An entry of [GET /api/users]: [{ id, username, status: 'online' }]. *)
Module ApiUser.
Record t : Type := mk {
  id : string;
  username : string;
  status : string
}.
End ApiUser.

(** [GET /api/messages] *)
Definition api_messages (w : World) : list Message.t :=
  slice (-50) (messageHistory w).

(** [GET /api/users] *)
Definition api_users (w : World) : list ApiUser.t :=
  map (fun user => ApiUser.mk (User.id user) (User.username user) "online")
      (JsMap.values (users w)).

(** Three sockets connected and logged in. *)
Definition three_online : World :=
  run init [Connect "A"; Connect "B"; Connect "C";
            UserLogin "A" env0 (login_data "alice" "pk-a");
            UserLogin "B" env0 (login_data "bob" "pk-b");
            UserLogin "C" env0 (login_data "carol" "pk-c")].

(** The emissions a handler adds are error-private. *)
Definition adds_privately (h : M unit) (w : World) : Prop :=
  exists es, outbox (after h w) = outbox w ++ es /\ errors_private es.

Ltac no_error_events :=
  let e := fresh "e" in let msg := fresh "msg" in let Hin := fresh "Hin" in
  intros e msg Hin; simpl in Hin;
  repeat (destruct Hin as [<-|Hin]; [simpl; try discriminate; eauto|]);
  destruct Hin.

(** ** All the listeners of the second server variant

    The listeners [join], [send_encrypted_message], [disconnect], [typing]
    and [stop_typing] with all their events; as in [Clone], the [message]
    text of [user_joined] and [user_left] is a function of the user name
    and is left out of the event, and [new Date().toLocaleTimeString()] is
    an input of the listener. *)

Module CloneServer.

Inductive Event : Type :=
| user_joined (username : value)
| user_count (n : nat)
| receive_encrypted_message (username encryptedMessage : value)
                            (timestamp : string)
| user_left (username : value)
| user_typing (username : value)
| user_stop_typing.

Record Emission : Type := mkEmission {
  target : Target;
  receivers : list string;
  event : Event
}.

Record World : Type := mkWorld {
  sockets : list string;
  users : JsMap.t value;
  outbox : list Emission
}.

Definition emit (t : Target) (e : Event) (w : World) : World :=
  mkWorld (sockets w) (users w)
          (outbox w ++ [mkEmission t (resolve (sockets w) t) e]).

(** [users.get(socket.id)] *)
Definition users_get (socket_id : string) (w : World) : value :=
  match JsMap.get socket_id (users w) with
  | Some username => username
  | None => VUndefined
  end.

Definition on_join (socket_id : string) (username : value) (w : World)
  : World :=
  let w1 := mkWorld (sockets w) (JsMap.set socket_id username (users w))
                    (outbox w) in
  let w2 := emit (BroadcastEmit socket_id) (user_joined username) w1 in
  emit IoEmit (user_count (JsMap.size (users w2))) w2.

(** [None] when reading [data.encryptedMessage] throws. *)
Definition on_send_encrypted_message (socket_id : string) (time : string)
    (data : value) (w : World) : option World :=
  if nullish data then None
  else Some (emit IoEmit
               (receive_encrypted_message (users_get socket_id w)
                  (get_field data "encryptedMessage") time) w).

Definition on_disconnect (socket_id : string) (w : World) : World :=
  let username := users_get socket_id w in
  if truthy username then
    let w1 := mkWorld (sockets w) (JsMap.delete socket_id (users w))
                      (outbox w) in
    let w2 := emit IoEmit (user_left username) w1 in
    emit IoEmit (user_count (JsMap.size (users w2))) w2
  else w.

Definition on_typing (socket_id : string) (w : World) : World :=
  let username := users_get socket_id w in
  if truthy username then emit (BroadcastEmit socket_id) (user_typing username) w
  else w.

Definition on_stop_typing (socket_id : string) (w : World) : World :=
  emit (BroadcastEmit socket_id) user_stop_typing w.

(** The socket leaves the namespace, then its [disconnect] listener runs. *)
Definition disconnect (socket_id : string) (w : World) : World :=
  on_disconnect socket_id
    (mkWorld (without socket_id (sockets w)) (users w) (outbox w)).

End CloneServer.

(** Two sockets connected to the second variant, alice joined. *)
Definition clone_two_sockets : CloneServer.World :=
  CloneServer.on_join "A" (VStr "alice")
    (CloneServer.mkWorld ["A"; "B"] JsMap.empty []).

(** ** The client of the second variant (whatsapp-clone-chat/public/client.js) *)

Module CloneClient.

(** The replacement function of [escapeHtml]: the object literal indexed
    by the matched character. *)
Definition entity (c : ascii) : string :=
  if Ascii.eqb c "&" then "&amp;"
  else if Ascii.eqb c "<" then "&lt;"
  else if Ascii.eqb c ">" then "&gt;"
  else if Ascii.eqb c "034" then "&quot;"
  else if Ascii.eqb c "'" then "&#039;"
  else String c EmptyString.

(** [text.replace(..., c => ...)] with the global pattern of the five
    special characters: each of them is replaced, the others are kept. *)
Fixpoint replace_special (text : string) : string :=
  match text with
  | EmptyString => EmptyString
  | String c rest => entity c ++ replace_special rest
  end.

(** [escapeHtml(text)]; [None] when [text.replace] is not a function. *)
Definition escapeHtml (text : value) : option string :=
  if truthy text then
    match text with
    | VStr s => Some (replace_special s)
    | _ => None
    end
  else Some "".

(** [joinChat]: the argument of [socket.emit('join', ...)], or [None] when
    the function returns without emitting. *)
Definition joinChat (input : string) : option value :=
  let username := trim input in
  if negb (truthy (VStr username)) then None
  else Some (VStr username).

End CloneClient.

(** How an HTML parser reads the five entities back; used to show that
    [escapeHtml] loses nothing. *)
Fixpoint decode_entities (s : string) : string :=
  match s with
  | EmptyString => EmptyString
  | String c r =>
      if Ascii.eqb c "&" then
        match r with
        | String "a" (String "m" (String "p" (String ";" r'))) =>
            String "&" (decode_entities r')
        | String "l" (String "t" (String ";" r')) =>
            String "<" (decode_entities r')
        | String "g" (String "t" (String ";" r')) =>
            String ">" (decode_entities r')
        | String "q" (String "u" (String "o" (String "t" (String ";" r')))) =>
            String "034" (decode_entities r')
        | String "#" (String "0" (String "3" (String "9" (String ";" r')))) =>
            String "'" (decode_entities r')
        | _ => String c (decode_entities r)
        end
      else String c (decode_entities r)
  end.

(** ** The client of chat-app (public/client.js)

    Of the client, the decisions are embedded and the document is not:
    a function returns what it alerts or what it emits.  The key pair
    comes from JSEncrypt, whose outcome is an input. *)

Module Client.

Inductive LoginOutcome : Type :=
| LoginAlert (message : string)
| LoginEmit (data : value) (currentUser : string).

(** [handleLogin] for the text of the name field; [generated] is the
    public key of [generateRSAKeys], or [None] when the promise is
    rejected. *)
Definition handleLogin (input : string) (generated : option string)
  : LoginOutcome :=
  let username := trim input in
  if negb (truthy (VStr username)) || (String.length username <? 2)%nat then
    LoginAlert "Username must be at least 2 characters long"
  else if (30 <? String.length username)%nat then
    LoginAlert "Username must be less than 30 characters"
  else
    match generated with
    | Some publicKey =>
        LoginEmit (VObj [("username", VStr username);
                         ("publicKey", VStr publicKey)])
                  username
    | None => LoginAlert "Failed to initialize encryption"
    end.

Fixpoint repeat_char (n : nat) (c : ascii) : string :=
  match n with
  | O => EmptyString
  | S n' => String c (repeat_char n' c)
  end.

(** [s.padStart(targetLength, fill)] for a fill string of one character. *)
Definition padStart (targetLength : nat) (fill : ascii) (s : string) : string :=
  repeat_char (targetLength - String.length s) fill ++ s.

(** [formatTime(date)] for [date.getHours()] and [date.getMinutes()]. *)
Definition formatTime (hours minutes : N) : string :=
  padStart 2 "0" (decimal hours) ++ ":" ++ padStart 2 "0" (decimal minutes).

End Client.

(** Reads a two-digit number; used to show that [formatTime] tells the
    times of a day apart. *)
Definition two_digits (a b : ascii) : option N :=
  let d c := (N_of_ascii c - 48)%N in
  if ((48 <=? N_of_ascii a) && (N_of_ascii a <=? 57)
      && (48 <=? N_of_ascii b) && (N_of_ascii b <=? 57))%N
  then Some (10 * d a + d b)%N else None.

Definition parse_time (s : string) : option (N * N) :=
  match s with
  | String a (String b (String ":" (String c (String d EmptyString)))) =>
      match two_digits a b, two_digits c d with
      | Some h, Some m => Some (h, m)
      | _, _ => None
      end
  | _ => None
  end.

Definition time_round_trip (h m : nat) : bool :=
  match parse_time (Client.formatTime (N.of_nat h) (N.of_nat m)) with
  | Some (h', m') => (N.eqb h' (N.of_nat h) && N.eqb m' (N.of_nat m))%bool
  | None => false
  end.

(** ** The client's view of who is online, and sending *)

Module ClientState.

(** The listeners of the client that touch the map [onlineUsers]:
    [online_users] clears it and sets every entry under its id,
    [user_disconnected] deletes the id, and no other event changes it
    ([user_connected] only shows an alert and the total). *)
Definition receive (onlineUsers : JsMap.t OnlineUser.t) (ev : Event)
  : JsMap.t OnlineUser.t :=
  match ev with
  | online_users us =>
      fold_left (fun m user => JsMap.set (OnlineUser.id user) user m)
                us JsMap.empty
  | user_disconnected userId _ _ _ => JsMap.delete userId onlineUsers
  | _ => onlineUsers
  end.

Inductive SendOutcome : Type :=
| SendAlert (message : string)
| SendEmit (data : value).

Section Encryption.
(** [new JSEncrypt()], [setPublicKey(key)], [encrypt(message)]: the cipher
    text, or [None] when JSEncrypt returns [false] or throws. *)
Variable rsa_encrypt : value -> string -> option string.

(** [encryptMessage(message)]: the value it returns. *)
Definition encryptMessage (onlineUsers : JsMap.t OnlineUser.t)
    (message : string) : value :=
  match JsMap.values onlineUsers with
  | [] => VStr message
  | recipient :: _ =>
      if negb (truthy (OnlineUser.publicKey recipient)) then VStr message
      else match rsa_encrypt (OnlineUser.publicKey recipient) message with
           | Some encrypted => VStr encrypted
           | None => VBool false
           end
  end.

(** [sendMessage()] for the text of the message field, the value of the
    recipient selector, the state of the socket, [currentUser] and the
    clock. *)
Definition sendMessage (input : string) (recipientSelect : string)
    (socket_connected : bool) (currentUser : option string)
    (onlineUsers : JsMap.t OnlineUser.t) (iso : string) : SendOutcome :=
  let message := trim input in
  let recipientId := js_or (VStr recipientSelect) VNull in
  if negb (truthy (VStr message)) then SendAlert "Please enter a message"
  else if negb socket_connected then SendAlert "Not connected to server"
  else
    let encryptedMessage := encryptMessage onlineUsers message in
    if negb (truthy encryptedMessage) then
      SendAlert "Failed to encrypt message"
    else
      match currentUser with
      | Some username =>
          SendEmit (VObj [("encryptedMessage", encryptedMessage);
                          ("recipientId", recipientId);
                          ("senderUsername", VStr username);
                          ("timestamp", VStr iso)])
      | None => SendAlert "Failed to send message"
      end.
End Encryption.

End ClientState.

(** The client's map that mirrors a registry. *)
Definition mirror (us : JsMap.t User.t) : JsMap.t OnlineUser.t :=
  map (fun ku => (fst ku, online_user (snd ku))) us.

(** * Properties *)

(** ** The embedding on small inputs *)

Example trim_both_ends : trim "  alice " = "alice".
Proof. reflexivity. Qed.

Example trim_inner_space_kept : trim (String (ascii_of_nat 9) "a b ") = "a b".
Proof. reflexivity. Qed.

Example trim_blank : trim "   " = "".
Proof. reflexivity. Qed.

Example slice_last_two : slice (-2) [1; 2; 3] = [2; 3].
Proof. reflexivity. Qed.

Example slice_short_array : slice (-30) [1; 2; 3] = [1; 2; 3].
Proof. reflexivity. Qed.

Example slice_from_one : slice 1 [1; 2; 3] = [2; 3].
Proof. reflexivity. Qed.

Example set_keeps_position :
  JsMap.set "a" 3 (JsMap.set "b" 2 (JsMap.set "a" 1 JsMap.empty))
  = [("a", 3); ("b", 2)].
Proof. reflexivity. Qed.

Example message_id :
  Message.id (messageObj env0 "A" (User.mk "A" "alice" (VStr "pk") "A" 0%N)
                         VUndefined (VStr "hi"))
  = "msg_1700000000000_4fzyo82mv".
Proof. reflexivity. Qed.

Example direct_message_delivery :
  let w := run init [Connect "A"; Connect "B";
                     UserLogin "A" env0 (login_data "alice" "pk-a");
                     UserLogin "B" env0 (login_data "bob" "pk-b")] in
  let m := messageObj env1 "A" (User.mk "A" "alice" (VStr "pk-a") "A"
                                        (date_now env0))
                      VUndefined (VStr "hi") in
  on_send_message "A" env1 (text_to "B" "hi") w
  = (Normal tt,
     sent_world "A" (VStr "B") m w) /\
  deliveries "A" (VStr "B") m w
  = [ mkEmission (IoTo "B") ["B"] (receive_message m);
      to_socket "A" (message_sent (Message.id m) (Message.timestamp m)) ].
Proof. split; reflexivity. Qed.

Example disconnect_unregisters :
  let w := run init [Connect "A"; Connect "B";
                     UserLogin "A" env0 (login_data "alice" "pk-a");
                     UserLogin "B" env0 (login_data "bob" "pk-b");
                     Disconnect "A" env1] in
  JsMap.keys (users w) = ["B"] /\ sockets w = ["B"] /\
  last (outbox w) (to_socket "" pong)
  = mkEmission IoEmit ["B"]
               (user_disconnected "A" "alice" (date_iso env1) 1).
Proof. repeat split. Qed.

(** ** Insertion-ordered maps *)

Module JsMapFacts.
Section Facts.
Context {V : Type}.
Implicit Types (m : JsMap.t V) (k : string) (v : V).

Lemma get_set_eq m k v : JsMap.get k (JsMap.set k v m) = Some v.
Proof.
  induction m as [|[k' v'] m IH]; simpl.
  - now rewrite String.eqb_refl.
  - destruct (String.eqb k k') eqn:E; simpl; rewrite ?String.eqb_refl, ?E; auto.
Qed.

Lemma get_set_neq m k k' v :
  k' <> k -> JsMap.get k' (JsMap.set k v m) = JsMap.get k' m.
Proof.
  intros Hne. induction m as [|[k0 v0] m IH]; simpl.
  - destruct (String.eqb_spec k' k); congruence.
  - destruct (String.eqb_spec k k0) as [->|Hk]; simpl.
    + destruct (String.eqb_spec k' k0); congruence.
    + now rewrite IH.
Qed.

Lemma get_delete_eq m k : JsMap.get k (JsMap.delete k m) = None.
Proof.
  induction m as [|[k0 v0] m IH]; simpl; auto.
  destruct (String.eqb k k0) eqn:E; simpl; rewrite ?E; auto.
Qed.

Lemma get_delete_neq m k k' :
  k' <> k -> JsMap.get k' (JsMap.delete k m) = JsMap.get k' m.
Proof.
  intros Hne. induction m as [|[k0 v0] m IH]; simpl; auto.
  destruct (String.eqb_spec k k0) as [->|Hk]; simpl.
  - destruct (String.eqb_spec k' k0); congruence.
  - now rewrite IH.
Qed.

(** Overwriting a key keeps the number of entries and their order. *)
Lemma set_existing m k v v0 :
  JsMap.get k m = Some v0 ->
  JsMap.size (JsMap.set k v m) = JsMap.size m /\
  JsMap.keys (JsMap.set k v m) = JsMap.keys m.
Proof.
  unfold JsMap.size, JsMap.keys.
  induction m as [|[k' v'] m IH]; simpl; [discriminate|].
  destruct (String.eqb_spec k k') as [->|Hk]; simpl; auto.
  intros H. destruct (IH H) as [-> ->]. auto.
Qed.

(** A new key goes last. *)
Lemma set_fresh m k v :
  JsMap.get k m = None -> JsMap.set k v m = m ++ [(k, v)].
Proof.
  induction m as [|[k' v'] m IH]; simpl; auto.
  destruct (String.eqb k k'); [discriminate|].
  intros H. now rewrite IH.
Qed.

Lemma keys_set_nodup m k v :
  NoDup (JsMap.keys m) -> NoDup (JsMap.keys (JsMap.set k v m)).
Proof.
  intros Hnd. destruct (JsMap.get k m) as [v0|] eqn:G.
  - now destruct (set_existing m k v v0 G) as [_ ->].
  - rewrite (set_fresh m k v G). unfold JsMap.keys in *.
    rewrite map_app. simpl.
    apply NoDup_app; auto.
    + constructor; [intros []|constructor].
    + intros x Hx [<-|[]].
      clear Hnd. induction m as [|[k' v'] m IH]; simpl in *; auto.
      destruct (String.eqb_spec k k') as [->|Hk]; [discriminate|].
      destruct Hx as [Hx|Hx]; [congruence|auto].
Qed.

Lemma keys_delete_incl m k x :
  In x (JsMap.keys (JsMap.delete k m)) -> In x (JsMap.keys m).
Proof.
  unfold JsMap.keys.
  induction m as [|[k' v'] m IH]; simpl; auto.
  destruct (String.eqb k k'); simpl; intuition.
Qed.

Lemma keys_delete_nodup m k :
  NoDup (JsMap.keys m) -> NoDup (JsMap.keys (JsMap.delete k m)).
Proof.
  induction m as [|[k' v'] m IH]; simpl; auto.
  intros Hnd. inversion Hnd as [|? ? Hin Hnd']; subst.
  destruct (String.eqb k k'); auto.
  change (NoDup (k' :: JsMap.keys (JsMap.delete k m))).
  constructor; auto.
  intros Hx. apply Hin. eapply keys_delete_incl; eauto.
Qed.
End Facts.
End JsMapFacts.

(** ** What each handler computes

    The handlers are evaluated once and for all on each class of input;
    the later theorems rewrite with these equations. *)

Section HandlerEquations.
Variables (sid : string) (env : Env) (data : value) (w : World).

Lemma on_user_login_nullish :
  nullish data = true ->
  exists e, on_user_login sid env data w = (Thrown e, w).
Proof.
  intros H. unfold on_user_login. run_handler. rewrite H. eauto.
Qed.

Lemma on_user_login_rejects :
  nullish data = false ->
  negb (truthy (get_field data "username"))
    || negb (truthy (get_field data "publicKey")) = true ->
  on_user_login sid env data w =
    (Returned,
     with_outbox w [to_socket sid (error "Username and public key required")]).
Proof.
  intros Hn Hf. unfold on_user_login. run_handler. rewrite Hn, Hf.
  reflexivity.
Qed.

Lemma on_user_login_accepts (s : string) :
  nullish data = false ->
  get_field data "username" = VStr s ->
  s <> "" ->
  truthy (get_field data "publicKey") = true ->
  on_user_login sid env data w =
    (Normal tt, login_world sid env s (get_field data "publicKey") w).
Proof.
  intros Hn Hu Hs Hp. unfold on_user_login. run_handler.
  apply String.eqb_neq in Hs.
  rewrite Hn, Hu, Hp. simpl. rewrite Hs. simpl.
  unfold login_world, login_emissions, to_all, to_socket. simpl.
  rewrite <- !app_assoc. reflexivity.
Qed.

Lemma on_user_login_not_a_string :
  nullish data = false ->
  truthy (get_field data "username") = true ->
  is_string (get_field data "username") = false ->
  truthy (get_field data "publicKey") = true ->
  exists e, on_user_login sid env data w = (Thrown e, w).
Proof.
  intros Hn Hu Hs Hp. unfold on_user_login. run_handler.
  rewrite Hn, Hu, Hp. simpl.
  destruct (get_field data "username"); try discriminate; eauto.
Qed.

Lemma on_send_message_nullish :
  nullish data = true ->
  exists e, on_send_message sid env data w = (Thrown e, w).
Proof.
  intros H. unfold on_send_message. run_handler. rewrite H. eauto.
Qed.

Lemma on_send_message_no_session :
  nullish data = false ->
  truthy_id (JsMap.get sid (userSessions w)) = false ->
  on_send_message sid env data w =
    (Returned, with_outbox w [to_socket sid (error "User not authenticated")]).
Proof.
  intros Hn Hs. unfold on_send_message. run_handler. rewrite Hn, Hs.
  reflexivity.
Qed.

Lemma on_send_message_no_sender (senderId : string) :
  nullish data = false ->
  JsMap.get sid (userSessions w) = Some senderId ->
  senderId <> "" ->
  JsMap.get senderId (users w) = None ->
  on_send_message sid env data w =
    (Returned, with_outbox w [to_socket sid (error "Sender not found")]).
Proof.
  intros Hn Hs Hne Hu. unfold on_send_message. run_handler.
  apply String.eqb_neq in Hne.
  rewrite Hn, Hs. simpl. rewrite Hne. simpl. rewrite Hu. reflexivity.
Qed.

Lemma on_send_message_registered (senderId : string) (sender : User.t) :
  nullish data = false ->
  JsMap.get sid (userSessions w) = Some senderId ->
  senderId <> "" ->
  JsMap.get senderId (users w) = Some sender ->
  let m := messageObj env senderId sender (get_field data "senderUsername")
                      (get_field data "encryptedMessage") in
  snd (on_send_message sid env data w)
    = sent_world sid (get_field data "recipientId") m w /\
  (is_string (get_field data "encryptedMessage") = true ->
   fst (on_send_message sid env data w) = Normal tt) /\
  (is_string (get_field data "encryptedMessage") = false ->
   exists e, fst (on_send_message sid env data w) = Thrown e).
Proof.
  intros Hn Hs Hne Hu m. unfold on_send_message. run_handler.
  apply String.eqb_neq in Hne.
  rewrite Hn, Hs. simpl. rewrite Hne. simpl. rewrite Hu. fold m.
  unfold sent_world, store, deliveries, to_all, to_socket, resolve.
  destruct (100 <? List.length (push m (messageHistory w)))%nat eqn:Hcap;
    simpl; rewrite ?Hcap;
    destruct (truthy (get_field data "recipientId")); simpl;
    try destruct (users_get (get_field data "recipientId") (users w)); simpl;
    destruct (get_field data "encryptedMessage"); simpl;
    rewrite <- ?app_assoc; simpl;
    (split; [reflexivity | split; intros; try discriminate; eauto]).
Qed.

End HandlerEquations.

(** ** The invariant of the reachable worlds *)

Lemma same_state_refl w : same_state w w.
Proof. repeat split. Qed.

Lemma same_state_with_outbox w es : same_state w (with_outbox w es).
Proof. repeat split. Qed.

Lemma wf_same_state w w' : same_state w w' -> wf w -> wf w'.
Proof.
  intros (Hs & Hu & Hss & Hh) [].
  constructor; rewrite ?Hs, ?Hu, ?Hss, ?Hh; assumption.
Qed.

Lemma connected_In sid w : connected sid w = true <-> In sid (sockets w).
Proof.
  unfold connected. rewrite existsb_exists. split.
  - intros (x & Hx & E). apply String.eqb_eq in E. now subst.
  - intros H. exists sid. split; auto. apply String.eqb_refl.
Qed.

Lemma truthy_id_cases (o : option string) :
  truthy_id o = false \/ exists s, o = Some s /\ s <> "".
Proof.
  destruct o as [s|]; simpl; auto.
  destruct (String.eqb_spec s ""); simpl; eauto.
Qed.

Lemma store_length m h :
  List.length h <= 100 -> List.length (store m h) <= 100.
Proof.
  intros H. unfold store, push, shift.
  destruct (Nat.ltb_spec 100 (List.length (h ++ [m]))) as [Hlt|Hle]; auto.
  rewrite length_app in Hlt. simpl in Hlt.
  destruct h as [|x h]; simpl in *; [lia|].
  rewrite length_app. simpl. lia.
Qed.

Lemma init_wf : wf init.
Proof.
  constructor; simpl; try discriminate; auto; try lia.
  constructor.
Qed.

Lemma login_world_wf sid env s pk w :
  In sid (sockets w) -> wf w -> wf (login_world sid env s pk w).
Proof.
  intros Hc []. constructor; simpl; auto.
  - intros k v. destruct (String.eqb_spec k sid) as [->|Hk].
    + rewrite JsMapFacts.get_set_eq. congruence.
    + rewrite JsMapFacts.get_set_neq by auto. auto.
  - intros k u. destruct (String.eqb_spec k sid) as [->|Hk]; auto.
    rewrite JsMapFacts.get_set_neq by auto. eauto.
  - intros k u. destruct (String.eqb_spec k sid) as [->|Hk].
    + intros _. apply JsMapFacts.get_set_eq.
    + rewrite !JsMapFacts.get_set_neq by auto. eauto.
  - intros k u. destruct (String.eqb_spec k sid) as [->|Hk].
    + rewrite JsMapFacts.get_set_eq. intros [= <-]. auto.
    + rewrite JsMapFacts.get_set_neq by auto. eauto.
  - now apply JsMapFacts.keys_set_nodup.
Qed.

Lemma sent_world_wf sid r m w : wf w -> wf (sent_world sid r m w).
Proof.
  intros []. constructor; simpl; auto. now apply store_length.
Qed.

Lemma on_user_login_wf sid env data w :
  In sid (sockets w) -> wf w -> wf (after (on_user_login sid env data) w).
Proof.
  intros Hc Hwf. unfold after.
  destruct (nullish data) eqn:Hn.
  { destruct (on_user_login_nullish sid env data w Hn) as [e ->]. auto. }
  destruct (negb (truthy (get_field data "username"))
            || negb (truthy (get_field data "publicKey"))) eqn:Hf.
  { rewrite on_user_login_rejects by auto.
    eapply wf_same_state; [apply same_state_with_outbox|auto]. }
  apply orb_false_elim in Hf. destruct Hf as [Hu Hp].
  apply negb_false_iff in Hu, Hp.
  destruct (get_field data "username") as [| | | |s|] eqn:Eu;
    try (edestruct (on_user_login_not_a_string sid env data w) as [e ->];
         rewrite ?Eu; auto; fail).
  assert (s <> "") by (intros ->; discriminate).
  rewrite (on_user_login_accepts sid env data w s) by auto.
  now apply login_world_wf.
Qed.

Lemma on_send_message_wf sid env data w :
  wf w -> wf (after (on_send_message sid env data) w).
Proof.
  intros Hwf. unfold after.
  destruct (nullish data) eqn:Hn.
  { destruct (on_send_message_nullish sid env data w Hn) as [e ->]. auto. }
  destruct (truthy_id_cases (JsMap.get sid (userSessions w)))
    as [Hs|(s & Hs & Hne)].
  { rewrite on_send_message_no_session by auto.
    eapply wf_same_state; [apply same_state_with_outbox|auto]. }
  destruct (JsMap.get s (users w)) as [u|] eqn:Hu.
  - destruct (on_send_message_registered sid env data w s u Hn Hs Hne Hu)
      as [-> _].
    now apply sent_world_wf.
  - rewrite (on_send_message_no_sender sid env data w s) by auto.
    eapply wf_same_state; [apply same_state_with_outbox|auto].
Qed.

Lemma on_user_typing_same_state sid w :
  same_state w (after (on_user_typing sid) w).
Proof.
  unfold after, on_user_typing. run_handler.
  destruct (truthy_id (JsMap.get sid (userSessions w))); simpl;
    [|apply same_state_refl].
  destruct (JsMap.get _ (users w)); simpl; repeat split.
Qed.

Lemma on_user_stopped_typing_same_state sid w :
  same_state w (after (on_user_stopped_typing sid) w).
Proof.
  unfold after, on_user_stopped_typing. run_handler.
  destruct (truthy_id (JsMap.get sid (userSessions w))); simpl;
    repeat split.
Qed.

Lemma on_ping_same_state sid w : same_state w (after (on_ping sid) w).
Proof. repeat split. Qed.

Lemma on_disconnect_no_session sid env w :
  truthy_id (JsMap.get sid (userSessions w)) = false ->
  after (on_disconnect sid env) w = w.
Proof.
  intros H. unfold after, on_disconnect. run_handler. now rewrite H.
Qed.

Lemma on_disconnect_session sid env w :
  JsMap.get sid (userSessions w) = Some sid -> sid <> "" ->
  after (on_disconnect sid env) w = disconnected_world sid env w.
Proof.
  intros H Hne. apply String.eqb_neq in Hne.
  unfold after, on_disconnect, disconnected_world. run_handler.
  rewrite H. simpl. rewrite Hne. simpl.
  destruct (JsMap.get sid (users w)); reflexivity.
Qed.

Lemma In_without sid k l : In k (without sid l) <-> In k l /\ k <> sid.
Proof.
  unfold without. rewrite filter_In, negb_true_iff, String.eqb_neq. tauto.
Qed.

Lemma on_disconnect_wf sid env w :
  In sid (sockets w) -> wf w ->
  wf (after (on_disconnect sid env) (set_sockets (without sid) w)).
Proof.
  intros Hc Hwf.
  assert (Hne : sid <> "") by (intros ->; now apply (wf_socket_ids w Hwf)).
  set (w0 := set_sockets (without sid) w).
  destruct (truthy_id_cases (JsMap.get sid (userSessions w0)))
    as [Hs|(s & Hs & _)].
  - rewrite on_disconnect_no_session by auto.
    destruct Hwf. constructor; simpl in *; auto.
    + intros k u Hk. apply In_without. split; eauto.
      intros ->. apply wf_users_session0 in Hk. rewrite Hk in Hs.
      simpl in Hs. apply String.eqb_neq in Hne. rewrite Hne in Hs.
      discriminate.
    + intros H. apply In_without in H. tauto.
  - assert (s = sid) by (eapply (wf_sessions w Hwf); eauto). subst s.
    rewrite on_disconnect_session by auto. unfold disconnected_world.
    destruct Hwf.
    destruct (JsMap.get sid (users w0)) as [u0|] eqn:Hu0;
      constructor; simpl in *; auto.
    + intros k v. destruct (String.eqb_spec k sid) as [->|Hk].
      * now rewrite JsMapFacts.get_delete_eq.
      * rewrite JsMapFacts.get_delete_neq by auto. auto.
    + intros k u. destruct (String.eqb_spec k sid) as [->|Hk].
      * now rewrite JsMapFacts.get_delete_eq.
      * rewrite JsMapFacts.get_delete_neq by auto. intros Hg.
        apply In_without. eauto.
    + intros k u. destruct (String.eqb_spec k sid) as [->|Hk].
      * now rewrite JsMapFacts.get_delete_eq.
      * rewrite !JsMapFacts.get_delete_neq by auto. eauto.
    + intros k u. destruct (String.eqb_spec k sid) as [->|Hk].
      * now rewrite JsMapFacts.get_delete_eq.
      * rewrite JsMapFacts.get_delete_neq by auto. eauto.
    + now apply JsMapFacts.keys_delete_nodup.
    + intros H. apply In_without in H. tauto.
    + intros k v. destruct (String.eqb_spec k sid) as [->|Hk].
      * now rewrite JsMapFacts.get_delete_eq.
      * rewrite JsMapFacts.get_delete_neq by auto. auto.
    + intros k u Hk. apply In_without. split; eauto. congruence.
    + intros k u Hk. destruct (String.eqb_spec k sid) as [->|Hk'].
      * congruence.
      * rewrite JsMapFacts.get_delete_neq by auto. eauto.
    + intros H. apply In_without in H. tauto.
Qed.

Lemma step_wf w r : wf w -> wf (step w r).
Proof.
  intros Hwf. destruct r as [sid|sid env data|sid env data|sid|sid|sid|sid env];
    simpl.
  - destruct (String.eqb_spec sid "") as [->|Hne]; simpl; auto.
    destruct (connected sid w); auto.
    destruct Hwf. constructor; simpl; auto.
    + intros k u Hk. apply in_or_app. eauto.
    + intros H. apply in_app_or in H. destruct H as [H|[H|[]]]; auto.
  - destruct (connected sid w) eqn:Hc; auto.
    apply on_user_login_wf; auto. now apply connected_In.
  - destruct (connected sid w); auto. now apply on_send_message_wf.
  - destruct (connected sid w); auto.
    eapply wf_same_state; [apply on_user_typing_same_state|auto].
  - destruct (connected sid w); auto.
    eapply wf_same_state; [apply on_user_stopped_typing_same_state|auto].
  - destruct (connected sid w); auto.
    eapply wf_same_state; [apply on_ping_same_state|auto].
  - destruct (connected sid w) eqn:Hc; auto.
    apply on_disconnect_wf; auto. now apply connected_In.
Qed.

Lemma run_wf rs : forall w, wf w -> wf (run w rs).
Proof.
  induction rs as [|r rs IH]; simpl; auto.
  intros w Hwf. apply IH. now apply step_wf.
Qed.

Lemma reachable_wf w : reachable w -> wf w.
Proof. intros [rs ->]. apply run_wf, init_wf. Qed.

Lemma reachable_run w rs : reachable w -> reachable (run w rs).
Proof.
  intros [rs0 ->]. exists (rs0 ++ rs). unfold run. now rewrite fold_left_app.
Qed.

(** ** Scenarios used as concrete inputs *)

Lemma alice_online_reachable : reachable alice_online.
Proof. eexists. reflexivity. Qed.

Lemma alice_and_guest_reachable : reachable alice_and_guest.
Proof. eexists. reflexivity. Qed.

(** ** Joining (ConnectionRegistry.register) *)

Lemma clone_join_overwrites sid name cw :
  JsMap.get sid (Clone.users (Clone.on_join sid name cw)) = Some name.
Proof. simpl. apply JsMapFacts.get_set_eq. Qed.

(** C1, as stated, fails: alice is registered on socket ["A"]; a second
    [user_login] on ["A"] as bob is not rejected, and the record of ["A"]
    is replaced. *)
Lemma second_login_not_rejected :
  let h := on_user_login "A" env1 (login_data "bob" "pk-b") in
  option_map User.username (JsMap.get "A" (users alice_online))
    = Some "alice" /\
  ~ rejected "A" h alice_online /\
  option_map User.username (JsMap.get "A" (users (after h alice_online)))
    = Some "bob".
Proof.
  repeat split.
  intros [msg H]. vm_compute in H. discriminate H.
Qed.

(** C1 (amended): a [user_login] on a connection that already has a User
    is treated like a first one (last write wins): with a non-empty string
    name and a credential it completes normally and the record of the
    connection is replaced in place by the new one; the number of users,
    their order and the other records are unchanged.  The [join] of the
    second server variant overwrites its entry in the same way. *)
Theorem second_login_overwrites (w : World) (sid : string) (env : Env)
    (data : value) (s : string) (old : User.t) :
  JsMap.get sid (users w) = Some old ->
  nullish data = false ->
  get_field data "username" = VStr s ->
  s <> "" ->
  truthy (get_field data "publicKey") = true ->
  let w' := after (on_user_login sid env data) w in
  fst (on_user_login sid env data w) = Normal tt /\
  JsMap.get sid (users w')
    = Some (User.mk sid (trim s) (get_field data "publicKey") sid
                    (date_now env)) /\
  JsMap.size (users w') = JsMap.size (users w) /\
  JsMap.keys (users w') = JsMap.keys (users w) /\
  (forall k, k <> sid -> JsMap.get k (users w') = JsMap.get k (users w)) /\
  (forall cw name,
      JsMap.get sid (Clone.users (Clone.on_join sid name cw)) = Some name).
Proof.
  intros Hold Hn Hu Hs Hp w'. subst w'. unfold after.
  rewrite (on_user_login_accepts sid env data w s Hn Hu Hs Hp). simpl.
  split; [reflexivity|].
  split; [apply JsMapFacts.get_set_eq|].
  destruct (JsMapFacts.set_existing (users w) sid
              (User.mk sid (trim s) (get_field data "publicKey") sid
                       (date_now env)) old Hold) as [Hsize Hkeys].
  repeat split; auto.
  - intros k Hk. now apply JsMapFacts.get_set_neq.
  - intros cw name. apply clone_join_overwrites.
Qed.

(** The overwrite at work: bob logs in on the socket of alice. *)
Lemma second_login_overwrites_witness :
  JsMap.get "A"
    (users (after (on_user_login "A" env1 (login_data "bob" "pk-b"))
                  alice_online))
  = Some (User.mk "A" "bob" (VStr "pk-b") "A" (date_now env1)).
Proof.
  refine (proj1 (proj2
    (second_login_overwrites alice_online "A" env1 (login_data "bob" "pk-b")
       "bob" (User.mk "A" "alice" (VStr "pk-a") "A" (date_now env0))
       _ _ _ _ _))).
  - reflexivity.
  - reflexivity.
  - reflexivity.
  - discriminate.
  - reflexivity.
Defined.

(** C2, as stated, fails in both directions: a name of 31 characters and
    a name of spaces only (trimmed length 0) are accepted, and a name of
    valid length sent without a credential is rejected. *)
Lemma login_length_not_checked :
  let w := run init [Connect "A"] in
  let long := "aaaaaaaaaaaaaaaaaaaaaaaaaaaaaaa" in
  let h1 := on_user_login "A" env0 (login_data long "pk") in
  let h2 := on_user_login "A" env0 (login_data "   " "pk") in
  let h3 := on_user_login "A" env0 (VObj [("username", VStr "alice")]) in
  (String.length (trim long) = 31 /\
   fst (h1 w) = Normal tt /\
   option_map User.username (JsMap.get "A" (users (after h1 w)))
     = Some long) /\
  (String.length (trim "   ") = 0 /\
   fst (h2 w) = Normal tt /\
   option_map User.username (JsMap.get "A" (users (after h2 w)))
     = Some "") /\
  (String.length (trim "alice") = 5 /\
   rejected "A" h3 w /\
   JsMap.get "A" (users (after h3 w)) = None).
Proof.
  repeat split.
  exists "Username and public key required". vm_compute. reflexivity.
Qed.

(** C2 (amended): for a payload that can be destructured, [user_login] is
    rejected with an [error] to the originating connection exactly when
    the [username] or the [publicKey] field is missing or falsy (the empty
    string included); the server puts no bound on the trimmed length.  For
    every non-empty string name sent with a credential, [user_login]
    followed by [users.get] on the same id yields a User whose name is the
    trimmed name. *)
Theorem login_rejected_iff_field_missing (w : World) (sid : string)
    (env : Env) (data : value) :
  nullish data = false ->
  let username := get_field data "username" in
  let publicKey := get_field data "publicKey" in
  let h := on_user_login sid env data in
  (rejected sid h w <->
   negb (truthy username) || negb (truthy publicKey) = true) /\
  (forall s, username = VStr s -> s <> "" -> truthy publicKey = true ->
     fst (h w) = Normal tt /\
     exists u, JsMap.get sid (users (after h w)) = Some u /\
               User.username u = trim s).
Proof.
  intros Hn username publicKey h. subst username publicKey h. split.
  - split.
    + intros [msg H].
      destruct (negb (truthy (get_field data "username"))
                || negb (truthy (get_field data "publicKey"))) eqn:Hf; auto.
      apply orb_false_elim in Hf. destruct Hf as [Hu Hp].
      apply negb_false_iff in Hu, Hp.
      destruct (is_string (get_field data "username")) eqn:Hs.
      * destruct (get_field data "username") as [| | | |s|] eqn:Eu;
          try discriminate.
        assert (s <> "") by (intros ->; discriminate).
        rewrite (on_user_login_accepts sid env data w s) in H by auto.
        discriminate.
      * destruct (on_user_login_not_a_string sid env data w) as [e He];
          auto.
        rewrite He in H. discriminate.
    + intros Hf. exists "Username and public key required".
      now apply on_user_login_rejects.
  - intros s Hu Hs Hp. unfold after.
    rewrite (on_user_login_accepts sid env data w s Hn Hu Hs Hp). simpl.
    split; auto. eexists. split; [apply JsMapFacts.get_set_eq|reflexivity].
Qed.

(** A name with spaces around it is accepted and stored trimmed. *)
Lemma login_rejected_iff_field_missing_witness :
  fst (on_user_login "A" env0 (login_data "  alice " "pk")
                     (run init [Connect "A"])) = Normal tt /\
  exists u,
    JsMap.get "A"
      (users (after (on_user_login "A" env0 (login_data "  alice " "pk"))
                    (run init [Connect "A"]))) = Some u /\
    User.username u = trim "  alice ".
Proof.
  refine (proj2
    (login_rejected_iff_field_missing (run init [Connect "A"]) "A" env0
       (login_data "  alice " "pk") _) "  alice " _ _ _).
  - reflexivity.
  - reflexivity.
  - discriminate.
  - reflexivity.
Defined.

(** ** The tail of an array *)

Section Tail.
Context {A : Type}.
Implicit Types (h l : list A) (n : nat).

Lemma slice_negative n h :
  0 < n -> slice (- Z.of_nat n) h = recentHistory_spec n h.
Proof.
  intros Hn. unfold slice, recentHistory_spec.
  destruct (Z.ltb_spec (- Z.of_nat n) 0) as [_|H]; [|lia].
  f_equal. lia.
Qed.

Lemma recentHistory_spec_suffix n h :
  h = firstn (List.length h - n) h ++ recentHistory_spec n h /\
  List.length (recentHistory_spec n h) = Nat.min n (List.length h).
Proof.
  unfold recentHistory_spec. split.
  - symmetry. apply firstn_skipn.
  - rewrite length_skipn. lia.
Qed.

Lemma recentHistory_spec_app n h l :
  recentHistory_spec n (recentHistory_spec n h ++ l)
  = recentHistory_spec n (h ++ l).
Proof.
  unfold recentHistory_spec.
  rewrite !length_app, length_skipn.
  rewrite !skipn_app, length_skipn, skipn_skipn.
  f_equal; f_equal; lia.
Qed.

Lemma recentHistory_spec_all n h :
  List.length h <= n -> recentHistory_spec n h = h.
Proof.
  intros H. unfold recentHistory_spec.
  replace (List.length h - n) with 0 by lia. reflexivity.
Qed.
End Tail.

Lemma store_recent m h :
  List.length h <= 100 -> store m h = recentHistory_spec 100 (h ++ [m]).
Proof.
  intros H. unfold store, push, shift, recentHistory_spec.
  rewrite length_app. simpl.
  destruct (Nat.ltb_spec 100 (List.length h + 1)) as [Hlt|Hle].
  - replace (List.length h + 1 - 100) with 1 by lia. reflexivity.
  - replace (List.length h + 1 - 100) with 0 by lia. reflexivity.
Qed.

(** ** Routing (MessageRouter.route) *)

(** What a registered sender's [send_message] leaves behind. *)
Lemma send_registered w sid env data u :
  wf w -> nullish data = false -> JsMap.get sid (users w) = Some u ->
  let m := messageObj env sid u (get_field data "senderUsername")
                      (get_field data "encryptedMessage") in
  after (on_send_message sid env data) w
    = sent_world sid (get_field data "recipientId") m w /\
  (is_string (get_field data "encryptedMessage") = true ->
   fst (on_send_message sid env data w) = Normal tt) /\
  (is_string (get_field data "encryptedMessage") = false ->
   exists e, fst (on_send_message sid env data w) = Thrown e).
Proof.
  intros Hwf Hn Hu.
  assert (Hs : JsMap.get sid (userSessions w) = Some sid)
    by (eapply wf_users_session; eauto).
  assert (Hne : sid <> "").
  { intros ->. eapply wf_socket_ids; eauto.
    eapply wf_users_connected; eauto. }
  exact (on_send_message_registered sid env data w sid u Hn Hs Hne Hu).
Qed.

(** What an unregistered sender's [send_message] leaves behind. *)
Lemma send_unregistered w sid env data :
  wf w -> nullish data = false -> JsMap.get sid (users w) = None ->
  exists msg,
    (msg = "User not authenticated" \/ msg = "Sender not found") /\
    on_send_message sid env data w
      = (Returned, with_outbox w [to_socket sid (error msg)]).
Proof.
  intros Hwf Hn Hu.
  destruct (truthy_id_cases (JsMap.get sid (userSessions w)))
    as [Hs|(s & Hs & Hne)].
  - eexists. split; [left; reflexivity|].
    now apply on_send_message_no_session.
  - assert (s = sid) by (eapply wf_sessions; eauto). subst s.
    eexists. split; [right; reflexivity|].
    now apply (on_send_message_no_sender sid env data w sid).
Qed.

Lemma successful_send_inv w sid env data :
  wf w -> successful_send sid env data w ->
  exists m,
    message_of w sid env data = Some m /\
    after (on_send_message sid env data) w
      = sent_world sid (get_field data "recipientId") m w.
Proof.
  unfold successful_send, message_of. intros Hwf Hok.
  destruct (nullish data) eqn:Hn.
  { destruct (on_send_message_nullish sid env data w Hn) as [e He].
    rewrite He in Hok. discriminate. }
  destruct (JsMap.get sid (users w)) as [u|] eqn:Hu.
  - eexists. split; [reflexivity|].
    now apply send_registered.
  - destruct (send_unregistered w sid env data Hwf Hn Hu) as (msg & _ & He).
    rewrite He in Hok. discriminate.
Qed.

(** C3: the code at the scenario of the spec.  Alice, alone online, sends
    a direct message to the unknown id ["xyz"]: she receives the error
    "Recipient not found", and yet the message has been stored, so the
    history grows from 0 to 1. *)
Theorem unknown_recipient_message_is_stored :
  let h := on_send_message "A" env1 (text_to "xyz" "hi") in
  JsMap.get "xyz" (users alice_online) = None /\
  messageHistory alice_online = [] /\
  outbox (after h alice_online)
    = outbox alice_online ++ [to_socket "A" (error "Recipient not found")] /\
  messageHistory (after h alice_online)
    = [messageObj env1 "A" (User.mk "A" "alice" (VStr "pk-a") "A"
                                    (date_now env0))
                  VUndefined (VStr "hi")].
Proof. repeat split. Qed.

Lemma sent_messages_users w w' reqs :
  users w' = users w -> sent_messages w' reqs = sent_messages w reqs.
Proof.
  intros H. induction reqs as [|[[sid env] data] rest IH]; simpl; auto.
  unfold message_of. rewrite H, IH. reflexivity.
Qed.

Lemma successful_sends_history reqs :
  forall w, wf w -> all_successful w reqs ->
    List.length (sent_messages w reqs) = List.length reqs /\
    messageHistory (run w (map send_request reqs))
      = recentHistory_spec 100 (messageHistory w ++ sent_messages w reqs).
Proof.
  induction reqs as [|[[sid env] data] rest IH]; intros w Hwf Hall.
  - simpl. rewrite app_nil_r. split; auto.
    symmetry. apply recentHistory_spec_all. now apply wf_history.
  - destruct Hall as [Hok Hrest].
    destruct (successful_send_inv w sid env data Hwf Hok) as (m & Hm & Hw).
    assert (Hc : connected sid w = true).
    { apply connected_In. unfold message_of in Hm.
      destruct (JsMap.get sid (users w)) eqn:Hu; [|discriminate].
      eapply wf_users_connected; eauto. }
    assert (Hwf' : wf (after (on_send_message sid env data) w))
      by now apply on_send_message_wf.
    destruct (IH _ Hwf' Hrest) as [Hlen Hhist].
    assert (Hsm : sent_messages (after (on_send_message sid env data) w) rest
                  = sent_messages w rest)
      by (apply sent_messages_users; rewrite Hw; reflexivity).
    rewrite Hsm in Hlen, Hhist.
    cbn [map send_request run fold_left step sent_messages].
    rewrite Hc, Hm. fold (run (after (on_send_message sid env data) w)
                              (map send_request rest)).
    rewrite Hhist.
    split; [simpl; lia|].
    rewrite Hw. cbn [sent_world messageHistory].
    rewrite store_recent by now apply wf_history.
    rewrite recentHistory_spec_app, <- app_assoc. reflexivity.
Qed.

(** C4: in every reachable world, and after any further requests, the
    history has at most 100 entries; a successful send on a history of
    exactly 100 entries drops the oldest entry and appends the new message
    last; after any sequence of successful sends the history is the last
    100 of the old history followed by the new messages in send order, so
    that after 101 successful sends on an empty history the first message
    is gone and the history is exactly the other 100 in send order. *)
Theorem history_capped_fifo (w : World) :
  reachable w ->
  (forall rs, List.length (messageHistory (run w rs)) <= 100) /\
  (forall sid env data,
     successful_send sid env data w ->
     List.length (messageHistory w) = 100 ->
     exists oldest rest m,
       messageHistory w = oldest :: rest /\
       message_of w sid env data = Some m /\
       messageHistory (after (on_send_message sid env data) w)
         = rest ++ [m]) /\
  (forall reqs,
     all_successful w reqs ->
     let msgs := sent_messages w reqs in
     let w' := run w (map send_request reqs) in
     List.length msgs = List.length reqs /\
     messageHistory w' = slice (-100) (messageHistory w ++ msgs) /\
     (messageHistory w = [] -> List.length reqs = 101 ->
      exists first rest,
        msgs = first :: rest /\ List.length rest = 100 /\
        messageHistory w' = rest)).
Proof.
  intros Hr. pose proof (reachable_wf w Hr) as Hwf. repeat split.
  - intros rs. apply wf_history. now apply run_wf.
  - intros sid env data Hok Hlen.
    destruct (successful_send_inv w sid env data Hwf Hok) as (m & Hm & Hw).
    destruct (messageHistory w) as [|oldest rest] eqn:Hh; [discriminate|].
    exists oldest, rest, m. repeat split; auto.
    rewrite Hw. cbn [sent_world messageHistory]. rewrite Hh.
    unfold store, push, shift. rewrite length_app. simpl in *.
    destruct (Nat.ltb_spec 100 (S (List.length rest + 1))); [reflexivity|lia].
  - now apply successful_sends_history.
  - change (-100)%Z with (- Z.of_nat 100)%Z.
    rewrite slice_negative by lia. now apply successful_sends_history.
  - intros Hempty Hn.
    destruct (successful_sends_history reqs w Hwf H) as [Hlen Hhist].
    rewrite Hhist, Hempty. simpl.
    destruct (sent_messages w reqs) as [|first rest] eqn:Hm;
      [simpl in Hlen; lia|].
    exists first, rest. simpl in Hlen. repeat split; [lia|].
    unfold recentHistory_spec. simpl List.length.
    replace (S (List.length rest) - 100) with 1 by lia. reflexivity.
Qed.

(** 101 broadcasts on an empty history: the first is gone, the other 100
    remain in send order. *)
Lemma history_capped_fifo_witness :
  let msgs := sent_messages alice_online hundred_and_one_sends in
  let w' := run alice_online (map send_request hundred_and_one_sends) in
  exists first rest,
    msgs = first :: rest /\ List.length rest = 100 /\
    messageHistory w' = rest.
Proof.
  destruct (history_capped_fifo alice_online) as (_ & _ & H).
  - exists [Connect "A"; UserLogin "A" env0 (login_data "alice" "pk-a")].
    reflexivity.
  - apply (H hundred_and_one_sends).
    + vm_compute. repeat split.
    + reflexivity.
    + reflexivity.
Defined.

Lemma store_last m h : exists older, store m h = older ++ [m].
Proof.
  unfold store, push, shift.
  destruct (100 <? List.length (h ++ [m]))%nat eqn:E; [|eauto].
  destruct h as [|x h]; simpl; eauto.
  simpl in E. discriminate.
Qed.

(** C5, as stated, fails: with ["A"] logged in and ["B"] connected but
    not logged in, the broadcast of ["A"] is delivered to ["A"] and ["B"],
    while the registered connections are ["A"] alone. *)
Lemma broadcast_reaches_unregistered_socket :
  let h := on_send_message "A" env1 (text_to_all "hi") in
  let m := messageObj env1 "A" (User.mk "A" "alice" (VStr "pk-a") "A"
                                        (date_now env0))
                      VUndefined (VStr "hi") in
  JsMap.keys (users alice_and_guest) = ["A"] /\
  JsMap.get "B" (users alice_and_guest) = None /\
  outbox (after h alice_and_guest)
    = outbox alice_and_guest ++
      [ mkEmission IoEmit ["A"; "B"] (receive_message m);
        to_socket "A" (message_sent (Message.id m) (Message.timestamp m)) ].
Proof. repeat split. Qed.

(** C5 (amended): for every [send_message] of a registered sender with no
    (falsy) [recipientId], [receive_message] is emitted with [io.emit] and
    so to every connected socket: every registered connection, the sender
    included, and also the sockets that have not logged in; the sender
    additionally receives [message_sent] with the id and the timestamp of
    the message. *)
Theorem broadcast_reaches_every_connected_socket (w : World) (sid : string)
    (env : Env) (data : value) (u : User.t) :
  reachable w ->
  JsMap.get sid (users w) = Some u ->
  nullish data = false ->
  truthy (get_field data "recipientId") = false ->
  let m := messageObj env sid u (get_field data "senderUsername")
                      (get_field data "encryptedMessage") in
  outbox (after (on_send_message sid env data) w)
    = outbox w ++
      [ mkEmission IoEmit (sockets w) (receive_message m);
        to_socket sid (message_sent (Message.id m) (Message.timestamp m)) ] /\
  In sid (sockets w) /\
  (forall k v, JsMap.get k (users w) = Some v -> In k (sockets w)).
Proof.
  intros Hr Hu Hn Hrec m. pose proof (reachable_wf w Hr) as Hwf.
  destruct (send_registered w sid env data u Hwf Hn Hu) as [-> _].
  cbn [sent_world outbox]. unfold deliveries. rewrite Hrec.
  repeat split.
  - eapply wf_users_connected; eauto.
  - intros k v. now apply wf_users_connected.
Qed.

(** The broadcast of alice while a second socket is connected. *)
Lemma broadcast_reaches_every_connected_socket_witness :
  let m := messageObj env1 "A" (User.mk "A" "alice" (VStr "pk-a") "A"
                                        (date_now env0))
                      VUndefined (VStr "hi") in
  outbox (after (on_send_message "A" env1 (text_to_all "hi")) alice_and_guest)
    = outbox alice_and_guest ++
      [ mkEmission IoEmit (sockets alice_and_guest) (receive_message m);
        to_socket "A" (message_sent (Message.id m) (Message.timestamp m)) ].
Proof.
  refine (proj1
    (broadcast_reaches_every_connected_socket alice_and_guest "A" env1
       (text_to_all "hi")
       (User.mk "A" "alice" (VStr "pk-a") "A" (date_now env0)) _ _ _ _)).
  - exists [Connect "A"; Connect "B";
            UserLogin "A" env0 (login_data "alice" "pk-a")].
    reflexivity.
  - reflexivity.
  - reflexivity.
  - reflexivity.
Defined.

(** C6, as stated, fails: with ["A"] logged in and ["B"] connected, the
    login of ["B"] emits the join announcement to ["A"] and to ["B"]
    itself. *)
Lemma join_announcement_reaches_new_user :
  let h := on_user_login "B" env1 (login_data "bob" "pk-b") in
  exists rest,
    outbox (after h alice_and_guest)
      = outbox alice_and_guest ++
        mkEmission IoEmit ["A"; "B"]
                   (user_connected "B" (VStr "bob") (date_iso env1) 2)
        :: rest /\
    In "B" ["A"; "B"].
Proof. eexists. split; [reflexivity|simpl; auto]. Qed.

(** C6 (amended): an accepted [user_login] emits, in this order,
    [user_connected] (the announcement naming the new user, with the
    updated total count) to every connected socket, the new user
    included; then, to the new user alone, [online_users] with the id,
    name and credential of every registered user, and [message_history]
    with the replay. *)
Theorem join_announced_to_all (w : World) (sid : string) (env : Env)
    (data : value) (s : string) :
  connected sid w = true ->
  nullish data = false ->
  get_field data "username" = VStr s ->
  s <> "" ->
  truthy (get_field data "publicKey") = true ->
  let w' := after (on_user_login sid env data) w in
  outbox w'
    = outbox w ++
      [ mkEmission IoEmit (sockets w)
          (user_connected sid (VStr s) (date_iso env)
                          (JsMap.size (users w')));
        mkEmission (SocketEmit sid) [sid]
          (online_users (map online_user (JsMap.values (users w'))));
        mkEmission (SocketEmit sid) [sid]
          (message_history (slice (-30) (messageHistory w))) ] /\
  In sid (sockets w) /\
  (exists u, JsMap.get sid (users w') = Some u /\
             In (online_user u) (map online_user (JsMap.values (users w')))).
Proof.
  intros Hc Hn Hu Hs Hp w'. subst w'. unfold after.
  rewrite (on_user_login_accepts sid env data w s Hn Hu Hs Hp).
  cbn [snd login_world outbox users]. repeat split.
  - now apply connected_In.
  - eexists. split; [apply JsMapFacts.get_set_eq|].
    apply in_map. unfold JsMap.values.
    generalize (User.mk sid (trim s) (get_field data "publicKey") sid
                        (date_now env)).
    intros u. induction (users w) as [|[k v] m IH]; simpl; auto.
    destruct (String.eqb sid k); simpl; auto.
Qed.

(** The login of bob while alice is online. *)
Lemma join_announced_to_all_witness :
  let w' := after (on_user_login "B" env1 (login_data "bob" "pk-b"))
                  alice_and_guest in
  outbox w'
    = outbox alice_and_guest ++
      [ mkEmission IoEmit (sockets alice_and_guest)
          (user_connected "B" (VStr "bob") (date_iso env1)
                          (JsMap.size (users w')));
        mkEmission (SocketEmit "B") ["B"]
          (online_users (map online_user (JsMap.values (users w'))));
        mkEmission (SocketEmit "B") ["B"]
          (message_history (slice (-30) (messageHistory alice_and_guest))) ].
Proof.
  refine (proj1
    (join_announced_to_all alice_and_guest "B" env1
       (login_data "bob" "pk-b") "bob" _ _ _ _ _)).
  - reflexivity.
  - reflexivity.
  - reflexivity.
  - discriminate.
  - reflexivity.
Defined.

(** C7, as stated, fails: alice sends a broadcast whose [senderUsername]
    field is "mallory"; the stored message names "mallory", not the
    registered name "alice", and its [type] is "direct" although no
    recipient was given. *)
Lemma message_name_is_client_supplied :
  let data := VObj [("encryptedMessage", VStr "hi");
                    ("senderUsername", VStr "mallory")] in
  let h := on_send_message "A" env1 data in
  option_map User.username (JsMap.get "A" (users alice_online))
    = Some "alice" /\
  get_field data "recipientId" = VUndefined /\
  exists m,
    messageHistory (after h alice_online) = [m] /\
    Sender.id (Message.sender m) = "A" /\
    Sender.username (Message.sender m) = VStr "mallory" /\
    Message.type m = "direct".
Proof. repeat split. eexists. repeat split. Qed.

(** C7 (amended): every message built by [send_message] for a registered
    sender is stored last in the history and carries the sender's
    connection id together with a display name that is the
    [senderUsername] field of the request when that field is truthy, and
    otherwise the sender's registered name at send time; its class is
    "direct" whenever a recipient is given. *)
Theorem message_sender_and_class (w : World) (sid : string) (env : Env)
    (data : value) (u : User.t) :
  reachable w ->
  JsMap.get sid (users w) = Some u ->
  nullish data = false ->
  exists older m,
    messageHistory (after (on_send_message sid env data) w) = older ++ [m] /\
    message_of w sid env data = Some m /\
    Sender.id (Message.sender m) = sid /\
    Sender.username (Message.sender m)
      = js_or (get_field data "senderUsername") (VStr (User.username u)) /\
    (truthy (get_field data "senderUsername") = false ->
     Sender.username (Message.sender m) = VStr (User.username u)) /\
    (truthy (get_field data "recipientId") = true ->
     Message.type m = "direct").
Proof.
  intros Hr Hu Hn. pose proof (reachable_wf w Hr) as Hwf.
  destruct (send_registered w sid env data u Hwf Hn Hu) as [-> _].
  cbn [sent_world messageHistory].
  destruct (store_last
              (messageObj env sid u (get_field data "senderUsername")
                          (get_field data "encryptedMessage"))
              (messageHistory w)) as [older Ho].
  exists older. eexists. split; [exact Ho|].
  unfold message_of. rewrite Hu. repeat split.
  simpl. unfold js_or. intros ->. reflexivity.
Qed.

(** A direct message of alice, sent without [senderUsername]. *)
Lemma message_sender_and_class_witness :
  exists older m,
    messageHistory
      (after (on_send_message "A" env1 (text_to "B" "hi")) alice_and_guest)
      = older ++ [m] /\
    message_of alice_and_guest "A" env1 (text_to "B" "hi") = Some m /\
    Sender.id (Message.sender m) = "A" /\
    Sender.username (Message.sender m)
      = js_or (get_field (text_to "B" "hi") "senderUsername")
              (VStr "alice") /\
    (truthy (get_field (text_to "B" "hi") "senderUsername") = false ->
     Sender.username (Message.sender m) = VStr "alice") /\
    (truthy (get_field (text_to "B" "hi") "recipientId") = true ->
     Message.type m = "direct").
Proof.
  refine (message_sender_and_class alice_and_guest "A" env1
            (text_to "B" "hi")
            (User.mk "A" "alice" (VStr "pk-a") "A" (date_now env0)) _ _ _).
  - exists [Connect "A"; Connect "B";
            UserLogin "A" env0 (login_data "alice" "pk-a")].
    reflexivity.
  - reflexivity.
  - reflexivity.
Defined.

(** C8: the code on a [send_message] whose payload field is missing.
    Alice is logged in and ["B"] is connected; alice sends [{}].  No
    [error] is emitted: the message, with an undefined payload, is stored
    and delivered to both sockets, alice is acknowledged, and the handler
    then throws. *)
Theorem send_without_payload_is_stored_and_throws :
  let h := on_send_message "A" env1 (VObj []) in
  let m := messageObj env1 "A" (User.mk "A" "alice" (VStr "pk-a") "A"
                                        (date_now env0))
                      VUndefined VUndefined in
  throws h alice_and_guest = true /\
  messageHistory alice_and_guest = [] /\
  messageHistory (after h alice_and_guest) = [m] /\
  outbox (after h alice_and_guest)
    = outbox alice_and_guest ++
      [ mkEmission IoEmit ["A"; "B"] (receive_message m);
        to_socket "A" (message_sent (Message.id m) (Message.timestamp m)) ].
Proof. repeat split. Qed.

(** C9: in every reachable world, a [send_message] from a connection with
    no registered User leaves the registry and the history as they were
    and delivers nothing but, at most, an [error] to the originating
    socket; when the payload can be destructured the handler returns
    after emitting exactly that error ("User not authenticated" or "Sender
    not found"). *)
Theorem unregistered_sender_rejected (w : World) (sid : string) (env : Env)
    (data : value) :
  reachable w ->
  JsMap.get sid (users w) = None ->
  let w' := after (on_send_message sid env data) w in
  messageHistory w' = messageHistory w /\
  users w' = users w /\
  (exists es, outbox w' = outbox w ++ es /\
     forall e, In e es -> exists msg, e = to_socket sid (error msg)) /\
  (nullish data = false ->
   exists msg,
     (msg = "User not authenticated" \/ msg = "Sender not found") /\
     on_send_message sid env data w
       = (Returned, with_outbox w [to_socket sid (error msg)])).
Proof.
  intros Hr Hu w'. subst w'. pose proof (reachable_wf w Hr) as Hwf.
  unfold after. destruct (nullish data) eqn:Hn.
  - destruct (on_send_message_nullish sid env data w Hn) as [e ->]. simpl.
    repeat split; [|discriminate].
    exists []. rewrite app_nil_r. split; [reflexivity|intros ? []].
  - destruct (send_unregistered w sid env data Hwf Hn Hu)
      as (msg & Hmsg & ->).
    simpl. repeat split; eauto.
    eexists. split; [reflexivity|].
    intros e [<-|[]]. eauto.
Qed.

(** A send from the socket that has not logged in. *)
Lemma unregistered_sender_rejected_witness :
  on_send_message "B" env1 (text_to_all "hi") alice_and_guest
    = (Returned,
       with_outbox alice_and_guest
                   [to_socket "B" (error "User not authenticated")]).
Proof.
  destruct (unregistered_sender_rejected alice_and_guest "B" env1
              (text_to_all "hi")) as (_ & _ & _ & H).
  - exists [Connect "A"; Connect "B";
            UserLogin "A" env0 (login_data "alice" "pk-a")].
    reflexivity.
  - reflexivity.
  - destruct H as (msg & _ & E); [reflexivity|].
    rewrite E. vm_compute in E.
    injection E as E. rewrite <- E. reflexivity.
Defined.

(** ** History replay *)

Lemma on_user_login_normal_inv w sid env data :
  fst (on_user_login sid env data w) = Normal tt ->
  exists s,
    get_field data "username" = VStr s /\
    on_user_login sid env data w
      = (Normal tt, login_world sid env s (get_field data "publicKey") w).
Proof.
  intros H. destruct (nullish data) eqn:Hn.
  { destruct (on_user_login_nullish sid env data w Hn) as [e He].
    rewrite He in H. discriminate. }
  destruct (negb (truthy (get_field data "username"))
            || negb (truthy (get_field data "publicKey"))) eqn:Hf.
  { rewrite on_user_login_rejects in H by auto. discriminate. }
  apply orb_false_elim in Hf. destruct Hf as [Hu Hp].
  apply negb_false_iff in Hu, Hp.
  destruct (is_string (get_field data "username")) eqn:Hs.
  - destruct (get_field data "username") as [| | | |s|] eqn:Eu;
      try discriminate.
    exists s. split; auto.
    apply on_user_login_accepts; auto. intros ->. discriminate.
  - destruct (on_user_login_not_a_string sid env data w) as [e He]; auto.
    rewrite He in H. discriminate.
Qed.

(** C10: [slice(-limit)] is the most recent [limit] messages, oldest
    first (a suffix of the history of length [min limit length]); a
    [user_login] that completes sends to the new user, as its last
    emission, [message_history] with exactly [slice(-30)] of the history,
    whatever the length of the history, and leaves the history as it
    was. *)
Theorem replay_is_recent_history (w : World) (sid : string) (env : Env)
    (data : value) :
  fst (on_user_login sid env data w) = Normal tt ->
  let h := messageHistory w in
  let w' := after (on_user_login sid env data) w in
  (forall limit (l : list Message.t), 0 < limit ->
     slice (- Z.of_nat limit) l = recentHistory_spec limit l /\
     l = firstn (List.length l - limit) l ++ slice (- Z.of_nat limit) l /\
     List.length (slice (- Z.of_nat limit) l)
       = Nat.min limit (List.length l)) /\
  (exists e1 e2,
     outbox w' = outbox w ++
       [e1; e2; to_socket sid (message_history (recentHistory_spec 30 h))] /\
     (forall l, event e1 <> message_history l) /\
     (forall l, event e2 <> message_history l)) /\
  messageHistory w' = h.
Proof.
  intros Hok h w'. subst h w'. unfold after.
  destruct (on_user_login_normal_inv w sid env data Hok) as (s & Hs & ->).
  cbn [snd login_world outbox messageHistory login_emissions].
  split; [|split; [|reflexivity]].
  - intros limit l Hl. rewrite slice_negative by auto.
    split; [reflexivity|]. apply recentHistory_spec_suffix.
  - do 2 eexists. unfold login_emissions.
    change (-30)%Z with (- Z.of_nat 30)%Z.
    rewrite slice_negative by lia.
    split; [reflexivity|]. split; intros l; discriminate.
Qed.

(** A login on a history of 40 messages replays the last 30. *)
Lemma replay_is_recent_history_witness :
  let h := messageHistory forty_messages in
  let w' := after (on_user_login "B" env1 (login_data "bob" "pk-b"))
                  forty_messages in
  List.length h = 40 /\
  List.length (recentHistory_spec 30 h) = 30 /\
  exists e1 e2,
    outbox w' = outbox forty_messages ++
      [e1; e2; to_socket "B" (message_history (recentHistory_spec 30 h))].
Proof.
  intros h w'. split; [reflexivity|]. split; [reflexivity|].
  destruct (replay_is_recent_history forty_messages "B" env1
              (login_data "bob" "pk-b")) as (_ & (e1 & e2 & H & _) & _).
  - reflexivity.
  - exists e1, e2. exact H.
Defined.

(** * Further properties of chat-app/server.js *)

(** ** Maps and lists *)

Lemma jsmap_get_In {V : Type} (m : JsMap.t V) k v :
  JsMap.get k m = Some v -> In (k, v) m.
Proof.
  induction m as [|[k' v'] m IH]; simpl; [discriminate|].
  destruct (String.eqb_spec k k') as [->|Hk].
  - intros [= ->]. auto.
  - auto.
Qed.

Lemma jsmap_In_get {V : Type} (m : JsMap.t V) k v :
  NoDup (JsMap.keys m) -> In (k, v) m -> JsMap.get k m = Some v.
Proof.
  unfold JsMap.keys.
  induction m as [|[k' v'] m IH]; simpl; [intros _ []|].
  intros Hnd [Heq|Hin].
  - injection Heq as -> ->. now rewrite String.eqb_refl.
  - inversion Hnd as [|? ? Hnot Hnd']; subst.
    destruct (String.eqb_spec k k') as [->|Hk]; auto.
    exfalso. apply Hnot. change k' with (fst (k', v)). now apply in_map.
Qed.

Lemma jsmap_get_None_keys {V : Type} (m : JsMap.t V) k :
  JsMap.get k m = None <-> ~ In k (JsMap.keys m).
Proof.
  unfold JsMap.keys.
  induction m as [|[k' v'] m IH]; simpl; [tauto|].
  destruct (String.eqb_spec k k') as [->|Hk].
  - split; [discriminate|]. intros H. exfalso. auto.
  - rewrite IH. split; intros H; [intros [E|E]; [congruence|auto]|auto].
Qed.

Lemma jsmap_size_delete {V : Type} (m : JsMap.t V) k v :
  NoDup (JsMap.keys m) -> JsMap.get k m = Some v ->
  S (JsMap.size (JsMap.delete k m)) = JsMap.size m.
Proof.
  unfold JsMap.size.
  induction m as [|[k' v'] m IH]; simpl; [discriminate|].
  intros Hnd. inversion Hnd as [|? ? Hnot Hnd']; subst.
  destruct (String.eqb_spec k k') as [->|Hk].
  - intros _. f_equal.
    assert (Hg : JsMap.get k' m = None) by now apply jsmap_get_None_keys.
    clear -Hg. induction m as [|[k0 v0] m IH]; simpl in *; auto.
    destruct (String.eqb k' k0); [discriminate|]. simpl. now rewrite IH.
  - intros Hg. simpl. f_equal. now apply IH.
Qed.

Lemma filter_eqb_nodup (l : list string) (k : string) :
  NoDup l -> In k l -> filter (fun s => String.eqb s k) l = [k].
Proof.
  induction l as [|x l IH]; simpl; [intros _ []|].
  intros Hnd. inversion Hnd as [|? ? Hnot Hnd']; subst.
  destruct (String.eqb_spec x k) as [->|Hx].
  - intros _. f_equal.
    clear -Hnot. induction l as [|y l IH]; simpl in *; auto.
    destruct (String.eqb_spec y k) as [->|Hy]; [exfalso; auto|].
    apply IH. tauto.
  - intros [E|Hin]; [congruence|auto].
Qed.

Lemma without_nodup sid l : NoDup l -> NoDup (without sid l).
Proof. apply NoDup_filter. Qed.

(** ** The further invariant *)

Lemma init_registry_inv : registry_inv init.
Proof. constructor; simpl; [discriminate|constructor]. Qed.

Lemma registry_inv_same_state w w' :
  same_state w w' -> registry_inv w -> registry_inv w'.
Proof.
  intros (Hs & Hu & Hss & _) [].
  constructor; rewrite ?Hs, ?Hu, ?Hss; assumption.
Qed.

Lemma on_user_login_registry_inv sid env data w :
  registry_inv w -> registry_inv (after (on_user_login sid env data) w).
Proof.
  intros Hinv. unfold after.
  destruct (nullish data) eqn:Hn.
  { destruct (on_user_login_nullish sid env data w Hn) as [e ->]. auto. }
  destruct (negb (truthy (get_field data "username"))
            || negb (truthy (get_field data "publicKey"))) eqn:Hf.
  { rewrite on_user_login_rejects by auto.
    eapply registry_inv_same_state; [apply same_state_with_outbox|auto]. }
  apply orb_false_elim in Hf. destruct Hf as [Hu Hp].
  apply negb_false_iff in Hu, Hp.
  destruct (get_field data "username") as [| | | |s|] eqn:Eu;
    try (edestruct (on_user_login_not_a_string sid env data w) as [e ->];
         rewrite ?Eu; auto; fail).
  assert (s <> "") by (intros ->; discriminate).
  rewrite (on_user_login_accepts sid env data w s) by auto.
  destruct Hinv. constructor; simpl; auto.
  intros k v. destruct (String.eqb_spec k sid) as [->|Hk].
  - intros _. rewrite JsMapFacts.get_set_eq. eauto.
  - rewrite !JsMapFacts.get_set_neq by auto. eauto.
Qed.

Lemma on_send_message_same_registry sid env data w :
  sockets (after (on_send_message sid env data) w) = sockets w /\
  users (after (on_send_message sid env data) w) = users w /\
  userSessions (after (on_send_message sid env data) w) = userSessions w.
Proof.
  unfold after. destruct (nullish data) eqn:Hn.
  { destruct (on_send_message_nullish sid env data w Hn) as [e ->]. auto. }
  destruct (truthy_id_cases (JsMap.get sid (userSessions w)))
    as [Hs|(s & Hs & Hne)].
  { rewrite on_send_message_no_session by auto. auto. }
  destruct (JsMap.get s (users w)) as [u|] eqn:Hu.
  - destruct (on_send_message_registered sid env data w s u Hn Hs Hne Hu)
      as [-> _]. auto.
  - rewrite (on_send_message_no_sender sid env data w s) by auto. auto.
Qed.

Lemma on_disconnect_registry_inv sid env w :
  wf w -> registry_inv w ->
  registry_inv (after (on_disconnect sid env) (set_sockets (without sid) w)).
Proof.
  intros Hwf Hinv.
  set (w0 := set_sockets (without sid) w).
  destruct (truthy_id_cases (JsMap.get sid (userSessions w0)))
    as [Hs|(s & Hs & Hne)].
  - rewrite on_disconnect_no_session by auto.
    destruct Hinv. constructor; simpl; auto. now apply without_nodup.
  - assert (s = sid) by (eapply (wf_sessions w Hwf); eauto). subst s.
    rewrite on_disconnect_session by auto. unfold disconnected_world.
    destruct Hinv.
    destruct (JsMap.get sid (users w0)) as [u0|] eqn:Hu0;
      constructor; simpl in *; try (now apply without_nodup).
    + intros k v. destruct (String.eqb_spec k sid) as [->|Hk].
      * now rewrite JsMapFacts.get_delete_eq.
      * rewrite !JsMapFacts.get_delete_neq by auto. eauto.
    + intros k v. destruct (String.eqb_spec k sid) as [->|Hk].
      * now rewrite JsMapFacts.get_delete_eq.
      * rewrite !JsMapFacts.get_delete_neq by auto. eauto.
Qed.

Lemma step_registry_inv w r :
  wf w -> registry_inv w -> registry_inv (step w r).
Proof.
  intros Hwf Hinv.
  destruct r as [sid|sid env data|sid env data|sid|sid|sid|sid env]; simpl.
  - destruct (String.eqb_spec sid "") as [->|Hne]; simpl; auto.
    destruct (connected sid w) eqn:Hc; auto.
    destruct Hinv. constructor; simpl; auto.
    apply NoDup_app; auto.
    + constructor; [intros []|constructor].
    + intros x Hx [<-|[]]. apply connected_In in Hx. congruence.
  - destruct (connected sid w); auto. now apply on_user_login_registry_inv.
  - destruct (connected sid w); auto.
    destruct (on_send_message_same_registry sid env data w) as (Hs & Hu & Hss).
    destruct Hinv. constructor; rewrite ?Hs, ?Hu, ?Hss; auto.
  - destruct (connected sid w); auto.
    eapply registry_inv_same_state; [apply on_user_typing_same_state|auto].
  - destruct (connected sid w); auto.
    eapply registry_inv_same_state;
      [apply on_user_stopped_typing_same_state|auto].
  - destruct (connected sid w); auto.
    eapply registry_inv_same_state; [apply on_ping_same_state|auto].
  - destruct (connected sid w); auto. now apply on_disconnect_registry_inv.
Qed.

Lemma run_registry_inv rs :
  forall w, wf w -> registry_inv w -> registry_inv (run w rs).
Proof.
  induction rs as [|r rs IH]; simpl; auto.
  intros w Hwf Hinv. apply IH; [now apply step_wf|now apply step_registry_inv].
Qed.

Lemma reachable_registry_inv w : reachable w -> registry_inv w.
Proof.
  intros [rs ->]. apply run_registry_inv; [apply init_wf|apply init_registry_inv].
Qed.

(** ** Registry, sessions and sockets *)

Lemma jsmap_keys_get {V : Type} (m : JsMap.t V) k :
  In k (JsMap.keys m) -> exists v, JsMap.get k m = Some v.
Proof.
  intros H. destruct (JsMap.get k m) as [v|] eqn:G; eauto.
  apply jsmap_get_None_keys in G. contradiction.
Qed.

(** X1: in every reachable world a socket has a session entry exactly when
    it has a user record, the session of a socket is its own id, the record
    stored under an id carries that id as [id] and [socketId] and belongs
    to a connected socket, the connected sockets and the registered ids are
    pairwise distinct, and there are at most as many users as connected
    sockets. *)
Theorem registry_sessions_sockets_agree (w : World) :
  reachable w ->
  (forall sid, JsMap.has sid (userSessions w) = JsMap.has sid (users w)) /\
  (forall sid v, JsMap.get sid (userSessions w) = Some v -> v = sid) /\
  (forall sid u, JsMap.get sid (users w) = Some u ->
     User.id u = sid /\ User.socketId u = sid /\ In sid (sockets w)) /\
  NoDup (sockets w) /\
  NoDup (JsMap.keys (users w)) /\
  JsMap.size (users w) <= List.length (sockets w).
Proof.
  intros Hr. pose proof (reachable_wf w Hr) as Hwf.
  pose proof (reachable_registry_inv w Hr) as Hinv.
  split; [|split; [|split; [|split; [|split]]]].
  - intros sid. unfold JsMap.has.
    destruct (JsMap.get sid (userSessions w)) as [v|] eqn:Hs.
    + destruct (inv_session_user w Hinv sid v Hs) as [u ->]. reflexivity.
    + destruct (JsMap.get sid (users w)) as [u|] eqn:Hu; auto.
      apply (wf_users_session w Hwf) in Hu. congruence.
  - apply (wf_sessions w Hwf).
  - intros sid u Hu.
    destruct (wf_users_id w Hwf sid u Hu) as [H1 H2].
    repeat split; auto. eapply wf_users_connected; eauto.
  - apply (inv_sockets_nodup w Hinv).
  - apply (wf_users_keys w Hwf).
  - unfold JsMap.size. replace (List.length (users w))
      with (List.length (JsMap.keys (users w)))
      by (unfold JsMap.keys; apply length_map).
    apply NoDup_incl_length; [apply (wf_users_keys w Hwf)|].
    intros k Hk. destruct (jsmap_keys_get _ _ Hk) as [u Hu].
    eapply wf_users_connected; eauto.
Qed.

(** In a world with two sockets and one login. *)
Lemma registry_sessions_sockets_agree_witness :
  JsMap.has "B" (userSessions alice_and_guest)
    = JsMap.has "B" (users alice_and_guest) /\
  JsMap.size (users alice_and_guest) <= List.length (sockets alice_and_guest).
Proof.
  destruct (registry_sessions_sockets_agree alice_and_guest)
    as (H1 & _ & _ & _ & _ & H6).
  - exists [Connect "A"; Connect "B";
            UserLogin "A" env0 (login_data "alice" "pk-a")].
    reflexivity.
  - split; [apply H1|exact H6].
Defined.

(** ** Sending without a user record *)

(** X2: in every reachable world the second sender check of [send_message]
    never fires: a request with a payload that can be destructured, from a
    socket without a user record, is always answered "User not
    authenticated", never "Sender not found". *)
Theorem sender_not_found_unreachable (w : World) (sid : string) (env : Env)
    (data : value) :
  reachable w ->
  nullish data = false ->
  JsMap.get sid (users w) = None ->
  on_send_message sid env data w
    = (Returned, with_outbox w [to_socket sid (error "User not authenticated")]).
Proof.
  intros Hr Hn Hu. apply on_send_message_no_session; auto.
  destruct (JsMap.get sid (userSessions w)) as [v|] eqn:Hs; auto.
  destruct (inv_session_user w (reachable_registry_inv w Hr) sid v Hs)
    as [u Hu'].
  congruence.
Qed.

(** The socket that has not logged in. *)
Lemma sender_not_found_unreachable_witness :
  on_send_message "B" env1 (text_to "A" "hi") alice_and_guest
    = (Returned,
       with_outbox alice_and_guest
                   [to_socket "B" (error "User not authenticated")]).
Proof.
  apply (sender_not_found_unreachable alice_and_guest "B" env1
           (text_to "A" "hi")).
  - exists [Connect "A"; Connect "B";
            UserLogin "A" env0 (login_data "alice" "pk-a")].
    reflexivity.
  - reflexivity.
  - reflexivity.
Defined.

(** ** Typing signals *)

Lemma on_user_typing_no_session sid w :
  truthy_id (JsMap.get sid (userSessions w)) = false ->
  on_user_typing sid w = (Normal tt, w).
Proof.
  intros H. unfold on_user_typing. run_handler. now rewrite H.
Qed.

Lemma on_user_typing_session sid w u :
  JsMap.get sid (userSessions w) = Some sid -> sid <> "" ->
  JsMap.get sid (users w) = Some u ->
  on_user_typing sid w
    = (Normal tt,
       with_outbox w [to_others sid w (user_typing sid (User.username u))]).
Proof.
  intros Hs Hne Hu. apply String.eqb_neq in Hne.
  unfold on_user_typing. run_handler.
  rewrite Hs. simpl. rewrite Hne. simpl. rewrite Hu. reflexivity.
Qed.

Lemma on_user_stopped_typing_no_session sid w :
  truthy_id (JsMap.get sid (userSessions w)) = false ->
  on_user_stopped_typing sid w = (Normal tt, w).
Proof.
  intros H. unfold on_user_stopped_typing. run_handler. now rewrite H.
Qed.

Lemma on_user_stopped_typing_session sid w :
  JsMap.get sid (userSessions w) = Some sid -> sid <> "" ->
  on_user_stopped_typing sid w
    = (Normal tt, with_outbox w [to_others sid w (user_stopped_typing sid)]).
Proof.
  intros Hs Hne. apply String.eqb_neq in Hne.
  unfold on_user_stopped_typing. run_handler.
  rewrite Hs. simpl. rewrite Hne. reflexivity.
Qed.

Lemma registered_session w sid u :
  wf w -> JsMap.get sid (users w) = Some u ->
  JsMap.get sid (userSessions w) = Some sid /\ sid <> "".
Proof.
  intros Hwf Hu. split; [eapply wf_users_session; eauto|].
  intros ->. eapply wf_socket_ids; eauto. eapply wf_users_connected; eauto.
Qed.

Lemma unregistered_session w sid :
  registry_inv w -> JsMap.get sid (users w) = None ->
  truthy_id (JsMap.get sid (userSessions w)) = false.
Proof.
  intros Hinv Hu.
  destruct (JsMap.get sid (userSessions w)) as [v|] eqn:Hs; auto.
  destruct (inv_session_user w Hinv sid v Hs) as [u Hu']. congruence.
Qed.

(** X3: in every reachable world [user_typing] never throws.  From a
    registered socket it emits one [user_typing] event, carrying the
    socket id and the registered name, to every connected socket except
    the sender; from a socket without a user it does nothing at all. *)
Theorem typing_relayed_to_others (w : World) (sid : string) :
  reachable w ->
  (forall u, JsMap.get sid (users w) = Some u ->
     on_user_typing sid w
       = (Normal tt,
          with_outbox w
            [mkEmission (BroadcastEmit sid) (without sid (sockets w))
                        (user_typing sid (User.username u))]) /\
     ~ In sid (without sid (sockets w)) /\
     (forall k, k <> sid -> In k (sockets w) ->
                In k (without sid (sockets w)))) /\
  (JsMap.get sid (users w) = None ->
   on_user_typing sid w = (Normal tt, w)).
Proof.
  intros Hr. pose proof (reachable_wf w Hr) as Hwf. split.
  - intros u Hu. destruct (registered_session w sid u Hwf Hu) as [Hs Hne].
    split; [now apply on_user_typing_session|]. split.
    + intros H. apply In_without in H. tauto.
    + intros k Hk Hin. apply In_without. auto.
  - intros Hu. apply on_user_typing_no_session.
    apply unregistered_session; auto. now apply reachable_registry_inv.
Qed.

(** Alice types while a second socket is connected. *)
Lemma typing_relayed_to_others_witness :
  on_user_typing "A" alice_and_guest
    = (Normal tt,
       with_outbox alice_and_guest
         [mkEmission (BroadcastEmit "A") ["B"] (user_typing "A" "alice")]).
Proof.
  refine (proj1 (proj1 (typing_relayed_to_others alice_and_guest "A" _)
                       (User.mk "A" "alice" (VStr "pk-a") "A" (date_now env0))
                       _)).
  - exists [Connect "A"; Connect "B";
            UserLogin "A" env0 (login_data "alice" "pk-a")].
    reflexivity.
  - reflexivity.
Defined.

(** X4: in every reachable world [user_stopped_typing] from a registered
    socket emits one [user_stopped_typing] event with the socket id to
    every connected socket except the sender, and from a socket without a
    user it does nothing. *)
Theorem stopped_typing_relayed_to_others (w : World) (sid : string) :
  reachable w ->
  (forall u, JsMap.get sid (users w) = Some u ->
     on_user_stopped_typing sid w
       = (Normal tt,
          with_outbox w
            [mkEmission (BroadcastEmit sid) (without sid (sockets w))
                        (user_stopped_typing sid)])) /\
  (JsMap.get sid (users w) = None ->
   on_user_stopped_typing sid w = (Normal tt, w)).
Proof.
  intros Hr. pose proof (reachable_wf w Hr) as Hwf. split.
  - intros u Hu. destruct (registered_session w sid u Hwf Hu) as [Hs Hne].
    now apply on_user_stopped_typing_session.
  - intros Hu. apply on_user_stopped_typing_no_session.
    apply unregistered_session; auto. now apply reachable_registry_inv.
Qed.

(** The socket that has not logged in stops typing: nothing happens. *)
Lemma stopped_typing_relayed_to_others_witness :
  on_user_stopped_typing "B" alice_and_guest = (Normal tt, alice_and_guest).
Proof.
  refine (proj2 (stopped_typing_relayed_to_others alice_and_guest "B" _) _).
  - exists [Connect "A"; Connect "B";
            UserLogin "A" env0 (login_data "alice" "pk-a")].
    reflexivity.
  - reflexivity.
Defined.

(** ** Leaving *)

(** X5: in every reachable world, the disconnection of a registered
    socket removes its user record and its session, lowers the number of
    users by exactly one and leaves the other records and the history
    alone; one [user_disconnected] event with the user's name and the new
    total goes to the sockets that remain connected, and not to the one
    that left.  A [send_message] on that id would afterwards be answered
    "User not authenticated". *)
Theorem disconnect_unregisters_and_announces (w : World) (sid : string)
    (env : Env) (u : User.t) :
  reachable w ->
  JsMap.get sid (users w) = Some u ->
  let w' := step w (Disconnect sid env) in
  JsMap.get sid (users w') = None /\
  JsMap.get sid (userSessions w') = None /\
  S (JsMap.size (users w')) = JsMap.size (users w) /\
  (forall k, k <> sid -> JsMap.get k (users w') = JsMap.get k (users w)) /\
  messageHistory w' = messageHistory w /\
  sockets w' = without sid (sockets w) /\
  ~ In sid (sockets w') /\
  outbox w'
    = outbox w ++
      [mkEmission IoEmit (without sid (sockets w))
         (user_disconnected sid (User.username u) (date_iso env)
                            (JsMap.size (users w')))] /\
  (forall env' data, nullish data = false ->
     on_send_message sid env' data w'
       = (Returned,
          with_outbox w' [to_socket sid (error "User not authenticated")])).
Proof.
  intros Hr Hu w'. pose proof (reachable_wf w Hr) as Hwf.
  destruct (registered_session w sid u Hwf Hu) as [Hs Hne].
  assert (Hc : connected sid w = true).
  { apply connected_In. eapply wf_users_connected; eauto. }
  assert (Hw' : w' = mkWorld (without sid (sockets w))
                   (JsMap.delete sid (users w))
                   (JsMap.delete sid (userSessions w))
                   (messageHistory w)
                   (outbox w ++
                      [mkEmission IoEmit (without sid (sockets w))
                         (user_disconnected sid (User.username u)
                            (date_iso env)
                            (JsMap.size (JsMap.delete sid (users w))))])).
  { subst w'. simpl. rewrite Hc.
    rewrite on_disconnect_session by auto.
    unfold disconnected_world. simpl. rewrite Hu. reflexivity. }
  rewrite Hw'. cbn [sockets users userSessions messageHistory outbox].
  split; [apply JsMapFacts.get_delete_eq|].
  split; [apply JsMapFacts.get_delete_eq|].
  split; [eapply jsmap_size_delete; eauto; apply (wf_users_keys w Hwf)|].
  split; [intros k Hk; now apply JsMapFacts.get_delete_neq|].
  split; [reflexivity|]. split; [reflexivity|].
  split; [intros H; apply In_without in H; tauto|].
  split; [reflexivity|].
  intros env' data Hn. apply on_send_message_no_session; auto.
  cbn [userSessions]. now rewrite JsMapFacts.get_delete_eq.
Qed.

(** Alice leaves while a second socket is connected. *)
Lemma disconnect_unregisters_and_announces_witness :
  outbox (step alice_and_guest (Disconnect "A" env1))
    = outbox alice_and_guest ++
      [mkEmission IoEmit ["B"]
         (user_disconnected "A" "alice" (date_iso env1) 0)].
Proof.
  refine (proj1 (proj2 (proj2 (proj2 (proj2 (proj2 (proj2 (proj2
    (disconnect_unregisters_and_announces alice_and_guest "A" env1
       (User.mk "A" "alice" (VStr "pk-a") "A" (date_now env0)) _ _))))))))).
  - exists [Connect "A"; Connect "B";
            UserLogin "A" env0 (login_data "alice" "pk-a")].
    reflexivity.
  - reflexivity.
Defined.

(** X6: in every reachable world, the disconnection of a connected socket
    that never logged in emits nothing and changes nothing but the set of
    connected sockets. *)
Theorem disconnect_before_login_is_silent (w : World) (sid : string)
    (env : Env) :
  reachable w ->
  connected sid w = true ->
  JsMap.get sid (users w) = None ->
  step w (Disconnect sid env) = set_sockets (without sid) w.
Proof.
  intros Hr Hc Hu. simpl. rewrite Hc.
  apply on_disconnect_no_session. cbn [set_sockets userSessions].
  apply unregistered_session; auto. now apply reachable_registry_inv.
Qed.

(** The socket that has not logged in leaves. *)
Lemma disconnect_before_login_is_silent_witness :
  step alice_and_guest (Disconnect "B" env1)
    = set_sockets (without "B") alice_and_guest.
Proof.
  apply (disconnect_before_login_is_silent alice_and_guest "B" env1).
  - exists [Connect "A"; Connect "B";
            UserLogin "A" env0 (login_data "alice" "pk-a")].
    reflexivity.
  - reflexivity.
  - reflexivity.
Defined.

(** ** Direct messages *)

(** X7: in every reachable world, a [send_message] of a registered sender
    whose [recipientId] is the id of a registered user delivers
    [receive_message] to that one socket and [message_sent], with the id
    and timestamp of the message, to the sender, and emits nothing else. *)
Theorem direct_message_reaches_recipient_only (w : World) (sid : string)
    (env : Env) (data : value) (u : User.t) (rid : string) (ru : User.t) :
  reachable w ->
  JsMap.get sid (users w) = Some u ->
  nullish data = false ->
  get_field data "recipientId" = VStr rid ->
  JsMap.get rid (users w) = Some ru ->
  let m := messageObj env sid u (get_field data "senderUsername")
                      (get_field data "encryptedMessage") in
  outbox (after (on_send_message sid env data) w)
    = outbox w ++
      [ mkEmission (IoTo rid) [rid] (receive_message m);
        mkEmission (SocketEmit sid) [sid]
                   (message_sent (Message.id m) (Message.timestamp m)) ].
Proof.
  intros Hr Hu Hn Hrec Hru m. pose proof (reachable_wf w Hr) as Hwf.
  destruct (send_registered w sid env data u Hwf Hn Hu) as [-> _].
  cbn [sent_world outbox]. unfold deliveries. rewrite Hrec.
  destruct (registered_session w rid ru Hwf Hru) as [_ Hne].
  apply String.eqb_neq in Hne. simpl. rewrite Hne. simpl. rewrite Hru.
  destruct (wf_users_id w Hwf rid ru Hru) as [_ ->].
  rewrite filter_eqb_nodup.
  - reflexivity.
  - apply inv_sockets_nodup. now apply reachable_registry_inv.
  - eapply wf_users_connected; eauto.
Qed.

(** Alice writes to bob while carol is online. *)
Lemma direct_message_reaches_recipient_only_witness :
  let m := messageObj env1 "A" (User.mk "A" "alice" (VStr "pk-a") "A"
                                        (date_now env0))
                      VUndefined (VStr "hi") in
  outbox (after (on_send_message "A" env1 (text_to "B" "hi")) three_online)
    = outbox three_online ++
      [ mkEmission (IoTo "B") ["B"] (receive_message m);
        mkEmission (SocketEmit "A") ["A"]
                   (message_sent (Message.id m) (Message.timestamp m)) ].
Proof.
  refine (direct_message_reaches_recipient_only three_online "A" env1
            (text_to "B" "hi")
            (User.mk "A" "alice" (VStr "pk-a") "A" (date_now env0)) "B"
            (User.mk "B" "bob" (VStr "pk-b") "B" (date_now env0))
            _ _ _ _ _).
  - eexists. reflexivity.
  - reflexivity.
  - reflexivity.
  - reflexivity.
  - reflexivity.
Defined.

(** ** What the history gives away *)


Lemma recentHistory_spec_nested {A : Type} (n k : nat) (l : list A) :
  n <= k -> recentHistory_spec n (recentHistory_spec k l)
            = recentHistory_spec n l.
Proof.
  intros H. unfold recentHistory_spec.
  rewrite length_skipn, skipn_skipn. f_equal. lia.
Qed.



(** ** The read endpoints *)

(** X9: [GET /api/messages] returns the last [min 50 length] messages of
    the history in history order, never more than 50, and the replay sent at login is always its tail: the last 30 of the
    endpoint's answer are the last 30 of the history. *)
Theorem api_messages_recent (w : World) :
  (exists older, messageHistory w = older ++ api_messages w) /\
  List.length (api_messages w) = Nat.min 50 (List.length (messageHistory w)) /\
  List.length (api_messages w) <= 50 /\
  slice (-30) (api_messages w) = slice (-30) (messageHistory w).
Proof.
  unfold api_messages.
  change (-50)%Z with (- Z.of_nat 50)%Z.
  change (-30)%Z with (- Z.of_nat 30)%Z.
  rewrite !slice_negative by lia.
  destruct (recentHistory_spec_suffix 50 (messageHistory w)) as [Hs Hl].
  split; [eexists; exact Hs|]. split; [exact Hl|].
  split; [rewrite Hl; lia|].
  apply recentHistory_spec_nested. lia.
Qed.

Lemma values_ids_keys (m : JsMap.t User.t) :
  (forall k u, In (k, u) m -> User.id u = k) ->
  map User.id (JsMap.values m) = JsMap.keys m.
Proof.
  unfold JsMap.values, JsMap.keys.
  induction m as [|[k u] m IH]; simpl; auto.
  intros H. rewrite (H k u) by auto. f_equal. apply IH. intros; apply H; auto.
Qed.

(** X10: in every reachable world [GET /api/users] lists each registered
    user once, in the order of registration: its ids are the keys of the
    registry, they are pairwise distinct, every entry has status 'online'
    and carries the name of the user registered under its id, who is a
    connected socket. *)
Theorem api_users_lists_registry (w : World) :
  reachable w ->
  map ApiUser.id (api_users w) = JsMap.keys (users w) /\
  NoDup (map ApiUser.id (api_users w)) /\
  List.length (api_users w) = JsMap.size (users w) /\
  (forall a, In a (api_users w) ->
     ApiUser.status a = "online" /\
     In (ApiUser.id a) (sockets w) /\
     exists u, JsMap.get (ApiUser.id a) (users w) = Some u /\
               User.username u = ApiUser.username a).
Proof.
  intros Hr. pose proof (reachable_wf w Hr) as Hwf.
  assert (Hid : forall k u, In (k, u) (users w) -> User.id u = k).
  { intros k u Hin. eapply (wf_users_id w Hwf).
    apply jsmap_In_get; eauto. apply (wf_users_keys w Hwf). }
  assert (Hids : map ApiUser.id (api_users w) = JsMap.keys (users w)).
  { unfold api_users. rewrite map_map. simpl.
    now apply values_ids_keys. }
  split; [exact Hids|].
  split; [rewrite Hids; apply (wf_users_keys w Hwf)|].
  split; [unfold api_users, JsMap.values, JsMap.size;
          now rewrite !length_map|].
  intros a Ha. unfold api_users, JsMap.values in Ha.
  rewrite map_map in Ha. apply in_map_iff in Ha.
  destruct Ha as ([k u] & <- & Hin). simpl.
  assert (Hg : JsMap.get k (users w) = Some u)
    by (apply jsmap_In_get; auto; apply (wf_users_keys w Hwf)).
  rewrite (Hid k u Hin).
  split; [reflexivity|]. split; [eapply wf_users_connected; eauto|eauto].
Qed.

(** With three users online. *)
Lemma api_users_lists_registry_witness :
  map ApiUser.id (api_users three_online) = ["A"; "B"; "C"].
Proof.
  refine (proj1 (api_users_lists_registry three_online _)).
  eexists. reflexivity.
Defined.

(** ** What the handlers leave alone *)

Lemma on_user_login_frame sid env data w :
  sockets (after (on_user_login sid env data) w) = sockets w /\
  messageHistory (after (on_user_login sid env data) w) = messageHistory w /\
  (forall k, k <> sid ->
     JsMap.get k (users (after (on_user_login sid env data) w))
       = JsMap.get k (users w) /\
     JsMap.get k (userSessions (after (on_user_login sid env data) w))
       = JsMap.get k (userSessions w)).
Proof.
  unfold after.
  destruct (nullish data) eqn:Hn.
  { destruct (on_user_login_nullish sid env data w Hn) as [e ->]. auto. }
  destruct (negb (truthy (get_field data "username"))
            || negb (truthy (get_field data "publicKey"))) eqn:Hf.
  { rewrite on_user_login_rejects by auto. auto. }
  apply orb_false_elim in Hf. destruct Hf as [Hu Hp].
  apply negb_false_iff in Hu, Hp.
  destruct (get_field data "username") as [| | | |s|] eqn:Eu;
    try (edestruct (on_user_login_not_a_string sid env data w) as [e ->];
         rewrite ?Eu; auto; fail).
  assert (s <> "") by (intros ->; discriminate).
  rewrite (on_user_login_accepts sid env data w s) by auto.
  simpl. repeat split; auto; now apply JsMapFacts.get_set_neq.
Qed.

Lemma on_disconnect_frame sid env w :
  sockets (after (on_disconnect sid env) w) = sockets w /\
  messageHistory (after (on_disconnect sid env) w) = messageHistory w.
Proof.
  unfold after, on_disconnect. run_handler.
  destruct (truthy_id (JsMap.get sid (userSessions w))); simpl; auto.
  destruct (JsMap.get _ (users w)); simpl; auto.
Qed.

(** X11: in any world and for any payload, also when the handler throws:
    [send_message] changes neither the registry nor the sessions;
    [user_login] changes neither the history nor the record or session
    of any other socket; [user_typing], [user_stopped_typing] and [ping]
    change nothing but what has been emitted; [disconnect] does not change
    the history. *)
Theorem handlers_leave_the_rest_alone (w : World) (sid : string) (env : Env)
    (data : value) :
  (users (after (on_send_message sid env data) w) = users w /\
   userSessions (after (on_send_message sid env data) w) = userSessions w) /\
  (messageHistory (after (on_user_login sid env data) w) = messageHistory w /\
   forall k, k <> sid ->
     JsMap.get k (users (after (on_user_login sid env data) w))
       = JsMap.get k (users w) /\
     JsMap.get k (userSessions (after (on_user_login sid env data) w))
       = JsMap.get k (userSessions w)) /\
  same_state w (after (on_user_typing sid) w) /\
  same_state w (after (on_user_stopped_typing sid) w) /\
  same_state w (after (on_ping sid) w) /\
  messageHistory (after (on_disconnect sid env) w) = messageHistory w.
Proof.
  split; [|split; [|split; [|split; [|split]]]].
  - destruct (on_send_message_same_registry sid env data w) as (_ & ? & ?).
    auto.
  - destruct (on_user_login_frame sid env data w) as (_ & ? & ?). auto.
  - apply on_user_typing_same_state.
  - apply on_user_stopped_typing_same_state.
  - apply on_ping_same_state.
  - apply on_disconnect_frame.
Qed.

(** ** Errors stay with the requester *)

Lemma errors_private_app es es' :
  errors_private es -> errors_private es' -> errors_private (es ++ es').
Proof.
  intros H H' e msg Hin. apply in_app_or in Hin. destruct Hin; eauto.
Qed.

Lemma errors_private_nil : errors_private [].
Proof. intros e msg []. Qed.

Lemma errors_private_to_socket sid ev : errors_private [to_socket sid ev].
Proof. intros e msg [<-|[]] _. simpl. eauto. Qed.

Lemma adds_privately_nothing h w :
  outbox (after h w) = outbox w -> adds_privately h w.
Proof.
  intros H. exists []. rewrite app_nil_r. split; [auto|apply errors_private_nil].
Qed.

Lemma on_user_login_adds_privately sid env data w :
  adds_privately (on_user_login sid env data) w.
Proof.
  unfold adds_privately, after.
  destruct (nullish data) eqn:Hn.
  { destruct (on_user_login_nullish sid env data w Hn) as [e ->].
    now apply (adds_privately_nothing (fun w => (Thrown e, w))). }
  destruct (negb (truthy (get_field data "username"))
            || negb (truthy (get_field data "publicKey"))) eqn:Hf.
  { rewrite on_user_login_rejects by auto. simpl.
    eexists. split; [reflexivity|apply errors_private_to_socket]. }
  apply orb_false_elim in Hf. destruct Hf as [Hu Hp].
  apply negb_false_iff in Hu, Hp.
  destruct (get_field data "username") as [| | | |s|] eqn:Eu;
    try (edestruct (on_user_login_not_a_string sid env data w) as [e ->];
         rewrite ?Eu; auto;
         now apply (adds_privately_nothing (fun w => (Thrown e, w)))).
  assert (s <> "") by (intros ->; discriminate).
  rewrite (on_user_login_accepts sid env data w s) by auto. simpl.
  eexists. split; [reflexivity|]. unfold login_emissions. no_error_events.
Qed.

Lemma on_send_message_adds_privately sid env data w :
  adds_privately (on_send_message sid env data) w.
Proof.
  unfold adds_privately, after. destruct (nullish data) eqn:Hn.
  { destruct (on_send_message_nullish sid env data w Hn) as [e ->].
    now apply (adds_privately_nothing (fun w => (Thrown e, w))). }
  destruct (truthy_id_cases (JsMap.get sid (userSessions w)))
    as [Hs|(s & Hs & Hne)].
  { rewrite on_send_message_no_session by auto. simpl.
    eexists. split; [reflexivity|apply errors_private_to_socket]. }
  destruct (JsMap.get s (users w)) as [u|] eqn:Hu.
  - destruct (on_send_message_registered sid env data w s u Hn Hs Hne Hu)
      as [-> _].
    cbn [sent_world outbox]. eexists. split; [reflexivity|].
    unfold deliveries.
    destruct (truthy (get_field data "recipientId"));
      [destruct (users_get _ (users w))|]; no_error_events.
  - rewrite (on_send_message_no_sender sid env data w s) by auto. simpl.
    eexists. split; [reflexivity|apply errors_private_to_socket].
Qed.

Lemma on_user_typing_adds_privately sid w :
  adds_privately (on_user_typing sid) w.
Proof.
  unfold adds_privately, after, on_user_typing. run_handler.
  destruct (truthy_id (JsMap.get sid (userSessions w))); simpl;
    [|exists []; rewrite app_nil_r; split; [auto|apply errors_private_nil]].
  destruct (JsMap.get _ (users w)); simpl.
  - eexists. split; [reflexivity|]. no_error_events.
  - exists []. rewrite app_nil_r. split; [auto|apply errors_private_nil].
Qed.

Lemma on_user_stopped_typing_adds_privately sid w :
  adds_privately (on_user_stopped_typing sid) w.
Proof.
  unfold adds_privately, after, on_user_stopped_typing. run_handler.
  destruct (truthy_id (JsMap.get sid (userSessions w))); simpl.
  - eexists. split; [reflexivity|]. no_error_events.
  - exists []. rewrite app_nil_r. split; [auto|apply errors_private_nil].
Qed.

Lemma on_disconnect_adds_privately sid env w :
  adds_privately (on_disconnect sid env) w.
Proof.
  unfold adds_privately, after, on_disconnect. run_handler.
  destruct (truthy_id (JsMap.get sid (userSessions w))); simpl;
    [|exists []; rewrite app_nil_r; split; [auto|apply errors_private_nil]].
  destruct (JsMap.get _ (users w)); simpl.
  - eexists. split; [reflexivity|]. no_error_events.
  - exists []. rewrite app_nil_r. split; [auto|apply errors_private_nil].
Qed.

Lemma step_errors_private w r :
  errors_private (outbox w) -> errors_private (outbox (step w r)).
Proof.
  intros H.
  assert (Hadd : forall h w0, outbox w0 = outbox w -> adds_privately h w0 ->
                              errors_private (outbox (after h w0))).
  { intros h w0 E (es & -> & Hes). rewrite E.
    now apply errors_private_app. }
  destruct r as [sid|sid env data|sid env data|sid|sid|sid|sid env]; simpl.
  - destruct (String.eqb sid "" || connected sid w); auto.
  - destruct (connected sid w); auto.
    apply Hadd; auto. apply on_user_login_adds_privately.
  - destruct (connected sid w); auto.
    apply Hadd; auto. apply on_send_message_adds_privately.
  - destruct (connected sid w); auto.
    apply Hadd; auto. apply on_user_typing_adds_privately.
  - destruct (connected sid w); auto.
    apply Hadd; auto. apply on_user_stopped_typing_adds_privately.
  - destruct (connected sid w); auto. simpl.
    apply errors_private_app; auto. no_error_events.
  - destruct (connected sid w); auto.
    apply Hadd; auto. apply on_disconnect_adds_privately.
Qed.

(** X12: whatever requests the server has processed, every [error] event
    it has emitted was sent with [socket.emit] and received by that one
    socket only; no error is ever sent to all sockets, to the other
    sockets or to a room. *)
Theorem errors_are_never_broadcast (rs : list Request) :
  forall e msg,
    In e (outbox (run init rs)) -> event e = error msg ->
    exists sid, target e = SocketEmit sid /\ receivers e = [sid].
Proof.
  change (errors_private (outbox (run init rs))).
  assert (H : forall w, errors_private (outbox w) ->
                        errors_private (outbox (run w rs))).
  { induction rs as [|r rs IH]; simpl; auto.
    intros w Hw. apply IH. now apply step_errors_private. }
  apply H. apply errors_private_nil.
Qed.

(** Two failed requests among successful ones. *)
Lemma errors_are_never_broadcast_witness :
  exists sid,
    target (to_socket "B" (error "User not authenticated")) = SocketEmit sid /\
    receivers (to_socket "B" (error "User not authenticated")) = [sid].
Proof.
  apply (errors_are_never_broadcast
           [Connect "A"; Connect "B";
            UserLogin "A" env0 (login_data "alice" "pk-a");
            SendMessage "B" env1 (text_to_all "hi");
            UserLogin "B" env1 (VObj [])]
           (to_socket "B" (error "User not authenticated"))
           "User not authenticated").
  - vm_compute. auto 10.
  - reflexivity.
Defined.

(** ** A first login *)

(** X13: a [user_login] with a non-empty string name and a credential on
    a socket that has no user record adds the new record after all the
    existing ones: the number of users grows by one, the total announced
    in [user_connected] is that new number, and the [online_users] list
    sent to the new user is the list of the users already registered, in
    their order, followed by the new user. *)
Theorem first_login_appends (w : World) (sid : string) (env : Env)
    (data : value) (s : string) :
  JsMap.get sid (users w) = None ->
  nullish data = false ->
  get_field data "username" = VStr s ->
  s <> "" ->
  truthy (get_field data "publicKey") = true ->
  let u := User.mk sid (trim s) (get_field data "publicKey") sid
                   (date_now env) in
  let w' := after (on_user_login sid env data) w in
  users w' = users w ++ [(sid, u)] /\
  JsMap.size (users w') = S (JsMap.size (users w)) /\
  outbox w'
    = outbox w ++
      [ mkEmission IoEmit (sockets w)
          (user_connected sid (VStr s) (date_iso env)
                          (S (JsMap.size (users w))));
        mkEmission (SocketEmit sid) [sid]
          (online_users (map online_user (JsMap.values (users w))
                           ++ [online_user u]));
        mkEmission (SocketEmit sid) [sid]
          (message_history (slice (-30) (messageHistory w))) ].
Proof.
  intros Hu Hn Hs Hne Hp u w'. subst w'. unfold after.
  rewrite (on_user_login_accepts sid env data w s Hn Hs Hne Hp).
  cbn [snd login_world users outbox]. fold u.
  rewrite (JsMapFacts.set_fresh (users w) sid u Hu).
  assert (Hsize : JsMap.size (users w ++ [(sid, u)]) = S (JsMap.size (users w))).
  { unfold JsMap.size. rewrite length_app. simpl. lia. }
  split; [reflexivity|]. split; [exact Hsize|].
  unfold login_emissions, to_all, to_socket. rewrite Hsize.
  unfold JsMap.values. rewrite !map_app. reflexivity.
Qed.

(** Bob logs in while alice is online. *)
Lemma first_login_appends_witness :
  users (after (on_user_login "B" env1 (login_data "bob" "pk-b"))
               alice_and_guest)
    = [("A", User.mk "A" "alice" (VStr "pk-a") "A" (date_now env0));
       ("B", User.mk "B" "bob" (VStr "pk-b") "B" (date_now env1))].
Proof.
  refine (proj1 (first_login_appends alice_and_guest "B" env1
                   (login_data "bob" "pk-b") "bob" _ _ _ _ _)).
  - reflexivity.
  - reflexivity.
  - reflexivity.
  - discriminate.
  - reflexivity.
Defined.

(** * The second server variant *)

Lemma jsmap_delete_absent {V : Type} (m : JsMap.t V) k :
  JsMap.get k m = None -> JsMap.delete k m = m.
Proof.
  induction m as [|[k' v'] m IH]; simpl; auto.
  destruct (String.eqb k k'); [discriminate|].
  intros H. now rewrite IH.
Qed.

Lemma jsmap_delete_set_fresh {V : Type} (m : JsMap.t V) k v :
  JsMap.get k m = None -> JsMap.delete k (JsMap.set k v m) = m.
Proof.
  intros H. rewrite JsMapFacts.set_fresh by auto.
  induction m as [|[k' v'] m IH]; simpl in *.
  - now rewrite String.eqb_refl.
  - destruct (String.eqb k k'); [discriminate|]. now rewrite IH.
Qed.

(** X14: in the second server variant, for a socket with no entry in the
    registry, [join] with a truthy name followed by the disconnection of
    the socket gives back the registry as it was, and the sockets that
    remain receive [user_left] with the name and [user_count] with the
    old number of users. *)
Theorem clone_join_disconnect_round_trip (w : CloneServer.World)
    (sid : string) (username : value) :
  JsMap.get sid (CloneServer.users w) = None ->
  truthy username = true ->
  let w1 := CloneServer.on_join sid username w in
  let w2 := CloneServer.disconnect sid w1 in
  CloneServer.users w2 = CloneServer.users w /\
  CloneServer.outbox w2
    = CloneServer.outbox w1 ++
      [ CloneServer.mkEmission IoEmit (without sid (CloneServer.sockets w))
          (CloneServer.user_left username);
        CloneServer.mkEmission IoEmit (without sid (CloneServer.sockets w))
          (CloneServer.user_count (JsMap.size (CloneServer.users w))) ].
Proof.
  intros Hu Ht w1 w2. subst w1 w2.
  unfold CloneServer.disconnect, CloneServer.on_disconnect,
    CloneServer.users_get, CloneServer.on_join, CloneServer.emit.
  cbn [CloneServer.users CloneServer.sockets CloneServer.outbox resolve].
  rewrite JsMapFacts.get_set_eq, Ht.
  cbn [CloneServer.users CloneServer.sockets CloneServer.outbox resolve].
  rewrite jsmap_delete_set_fresh by auto.
  split; [reflexivity|]. rewrite <- !app_assoc. reflexivity.
Qed.

(** Bob joins and leaves while alice is online. *)
Lemma clone_join_disconnect_round_trip_witness :
  CloneServer.users
    (CloneServer.disconnect "B"
       (CloneServer.on_join "B" (VStr "bob") clone_two_sockets))
  = CloneServer.users clone_two_sockets.
Proof.
  refine (proj1 (clone_join_disconnect_round_trip clone_two_sockets "B"
                   (VStr "bob") _ _)).
  - reflexivity.
  - reflexivity.
Defined.



(** The two embeddings of [join] agree on the registry. *)
Lemma clone_on_join_agree sid username ss us out out' :
  CloneServer.users
    (CloneServer.on_join sid username (CloneServer.mkWorld ss us out))
  = Clone.users (Clone.on_join sid username (Clone.mkWorld ss us out')).
Proof. reflexivity. Qed.

(** * The client of the second variant *)

Lemma entity_cases (c : ascii) :
  (c = "&"%char /\ CloneClient.entity c = "&amp;") \/
  (c = "<"%char /\ CloneClient.entity c = "&lt;") \/
  (c = ">"%char /\ CloneClient.entity c = "&gt;") \/
  (c = "034"%char /\ CloneClient.entity c = "&quot;") \/
  (c = "'"%char /\ CloneClient.entity c = "&#039;") \/
  (c <> "&"%char /\ c <> "<"%char /\ c <> ">"%char /\ c <> "034"%char /\
   c <> "'"%char /\ CloneClient.entity c = String c EmptyString).
Proof.
  unfold CloneClient.entity.
  destruct (Ascii.eqb_spec c "&"); [auto|].
  destruct (Ascii.eqb_spec c "<"); [auto|].
  destruct (Ascii.eqb_spec c ">"); [auto 6|].
  destruct (Ascii.eqb_spec c "034"); [auto 6|].
  destruct (Ascii.eqb_spec c "'"); [auto 7|].
  do 5 right. auto 10.
Qed.

Lemma decode_replace_special (s : string) :
  decode_entities (CloneClient.replace_special s) = s.
Proof.
  induction s as [|c s IH]; [reflexivity|].
  cbn [CloneClient.replace_special].
  destruct (entity_cases c)
    as [[-> ->]|[[-> ->]|[[-> ->]|[[-> ->]|[[-> ->]|(H & _ & _ & _ & _ & ->)]]]]];
    try (simpl; now rewrite IH).
  cbn [append decode_entities].
  apply Ascii.eqb_neq in H. rewrite H. now rewrite IH.
Qed.

Lemma In_string_app (c : ascii) (a b : string) :
  In c (list_ascii_of_string (a ++ b)) ->
  In c (list_ascii_of_string a) \/ In c (list_ascii_of_string b).
Proof.
  induction a as [|x a IH]; simpl; auto.
  intros [H|H]; auto. destruct (IH H); auto.
Qed.

(** X16: the text [escapeHtml] returns for a string never contains the
    characters [<], [>], the double quote or the apostrophe, and reading
    its five entities back gives the original text, so that two different
    texts are never escaped to the same one. *)
Theorem escapeHtml_is_inert_and_lossless (s out : string) :
  CloneClient.escapeHtml (VStr s) = Some out ->
  (forall c, In c (list_ascii_of_string out) ->
     c <> "<"%char /\ c <> ">"%char /\ c <> "034"%char /\ c <> "'"%char) /\
  decode_entities out = s /\
  (forall s' : string, CloneClient.escapeHtml (VStr s') = Some out -> s' = s).
Proof.
  assert (Hout : forall t o, CloneClient.escapeHtml (VStr t) = Some o ->
                             o = CloneClient.replace_special t).
  { intros t o. unfold CloneClient.escapeHtml. simpl.
    destruct (String.eqb_spec t "") as [->|_]; simpl; congruence. }
  intros H. apply Hout in H. subst out.
  split; [|split].
  - induction s as [|x s IH]; simpl; [intros c []|].
    intros c Hc. apply In_string_app in Hc. destruct Hc as [Hc|Hc]; auto.
    destruct (entity_cases x)
      as [[-> E]|[[-> E]|[[-> E]|[[-> E]|[[-> E]|(_ & ? & ? & ? & ? & E)]]]]];
      rewrite E in Hc; simpl in Hc;
      repeat (destruct Hc as [<-|Hc];
              [repeat split; try discriminate; auto|]);
      destruct Hc.
  - apply decode_replace_special.
  - intros s' H'. apply Hout in H'.
    rewrite <- (decode_replace_special s'), <- H'.
    apply decode_replace_special.
Qed.

(** A script tag is escaped. *)
Lemma escapeHtml_is_inert_and_lossless_witness :
  decode_entities "&lt;b&gt; &amp; &#039;x&#039;" = "<b> & 'x'".
Proof.
  refine (proj1 (proj2
    (escapeHtml_is_inert_and_lossless "<b> & 'x'"
       "&lt;b&gt; &amp; &#039;x&#039;" _))).
  reflexivity.
Defined.

(** * The client of chat-app *)

(** ** Trimming *)

Lemma trim_end_keeps_head c s :
  is_white_space c = false -> trim_end (String c s) = String c (trim_end s).
Proof.
  intros H. simpl. rewrite H. destruct (trim_end s); reflexivity.
Qed.

Lemma trim_end_idempotent s : trim_end (trim_end s) = trim_end s.
Proof.
  induction s as [|c s IH]; [reflexivity|].
  simpl. destruct (trim_end s) as [|d t] eqn:E.
  - destruct (is_white_space c) eqn:W; [reflexivity|].
    simpl. now rewrite W.
  - simpl. simpl in IH. rewrite IH. reflexivity.
Qed.

Lemma trim_start_head s :
  trim_start s = EmptyString \/
  exists c r, trim_start s = String c r /\ is_white_space c = false.
Proof.
  induction s as [|c s IH]; simpl; auto.
  destruct (is_white_space c) eqn:W; eauto.
Qed.

Lemma trim_idempotent s : trim (trim s) = trim s.
Proof.
  unfold trim. destruct (trim_start_head s) as [->|(c & r & -> & W)].
  - reflexivity.
  - rewrite (trim_end_keeps_head c r W). simpl trim_start. rewrite W.
    rewrite <- (trim_end_keeps_head c r W). apply trim_end_idempotent.
Qed.

(** ** Logging in through the client *)

Lemma handleLogin_emits input generated data cu :
  Client.handleLogin input generated = Client.LoginEmit data cu ->
  exists publicKey,
    generated = Some publicKey /\
    cu = trim input /\
    data = VObj [("username", VStr (trim input));
                 ("publicKey", VStr publicKey)] /\
    2 <= String.length (trim input) <= 30.
Proof.
  unfold Client.handleLogin.
  destruct (negb (truthy (VStr (trim input)))
            || (String.length (trim input) <? 2)%nat) eqn:E1; [discriminate|].
  destruct (30 <? String.length (trim input))%nat eqn:E2; [discriminate|].
  destruct generated as [pk|]; [|discriminate].
  intros [= <- <-]. exists pk.
  apply orb_false_elim in E1. destruct E1 as [_ E1].
  apply Nat.ltb_ge in E1, E2. auto.
Qed.

(** X17: [handleLogin] emits [user_login] exactly when the trimmed name
    has 2 to 30 characters and the key pair could be generated; the
    server, in any world, accepts what it emits with a non-empty public
    key, and the user then registered under the socket carries exactly
    the trimmed name, which is also the name the client keeps in
    [currentUser]. *)
Theorem client_login_is_accepted (input : string) (generated : option string) :
  ((exists data cu,
      Client.handleLogin input generated = Client.LoginEmit data cu) <->
   (2 <= String.length (trim input) <= 30 /\ generated <> None)) /\
  (forall data cu publicKey w sid env,
     Client.handleLogin input generated = Client.LoginEmit data cu ->
     generated = Some publicKey -> publicKey <> "" ->
     fst (on_user_login sid env data w) = Normal tt /\
     exists u,
       JsMap.get sid (users (after (on_user_login sid env data) w)) = Some u /\
       User.username u = trim input /\
       User.username u = cu /\
       User.publicKey u = VStr publicKey).
Proof.
  split.
  - split.
    + intros (data & cu & H).
      destruct (handleLogin_emits _ _ _ _ H) as (pk & -> & _ & _ & Hlen).
      split; [exact Hlen|discriminate].
    + intros [[Hlo Hhi] Hg]. unfold Client.handleLogin.
      assert (E : truthy (VStr (trim input)) = true).
      { simpl. destruct (trim input); [simpl in Hlo; lia|reflexivity]. }
      rewrite E. simpl negb. simpl orb.
      destruct (Nat.ltb_spec (String.length (trim input)) 2); [lia|].
      destruct (Nat.ltb_spec 30 (String.length (trim input))); [lia|].
      destruct generated as [pk|]; [eauto|congruence].
  - intros data cu publicKey w sid env H Hg Hpk.
    destruct (handleLogin_emits _ _ _ _ H) as (pk & Hg' & -> & -> & Hlen).
    assert (pk = publicKey) by congruence. subst pk.
    assert (Hne : trim input <> "").
    { intros E. rewrite E in Hlen. simpl in Hlen. lia. }
    assert (Hacc := on_user_login_accepts sid env
              (VObj [("username", VStr (trim input));
                     ("publicKey", VStr publicKey)]) w (trim input)
              eq_refl eq_refl Hne).
    unfold after. rewrite Hacc.
    + simpl. split; [reflexivity|]. eexists.
      split; [apply JsMapFacts.get_set_eq|]. simpl.
      rewrite trim_idempotent. auto.
    + simpl. destruct (String.eqb_spec publicKey ""); [contradiction|].
      reflexivity.
Qed.

(** A name typed with spaces around it. *)
Lemma client_login_is_accepted_witness :
  exists u,
    JsMap.get "A"
      (users (after (on_user_login "A" env0
                       (VObj [("username", VStr "alice");
                              ("publicKey", VStr "pk-a")]))
                    (run init [Connect "A"]))) = Some u /\
    User.username u = trim "  alice  " /\
    User.username u = "alice" /\
    User.publicKey u = VStr "pk-a".
Proof.
  refine (proj2 (proj2 (client_login_is_accepted "  alice  " (Some "pk-a"))
                   (VObj [("username", VStr "alice");
                          ("publicKey", VStr "pk-a")])
                   "alice" "pk-a" (run init [Connect "A"]) "A" env0 _ _ _)).
  - reflexivity.
  - reflexivity.
  - discriminate.
Defined.

(** ** Times *)

Lemma time_round_trip_day :
  forallb (fun h => forallb (time_round_trip h) (seq 0 60)) (seq 0 24) = true.
Proof. vm_compute. reflexivity. Qed.

Lemma parse_time_length s r : parse_time s = Some r -> String.length s = 5.
Proof.
  unfold parse_time.
  destruct s as [|a [|b [|c [|d [|e [|f t]]]]]]; intros H;
    try discriminate; try reflexivity;
    exfalso; destruct c as [[] [] [] [] [] [] [] []]; discriminate.
Qed.

(** X18: for the hours and minutes of a day, [formatTime] gives a text of
    exactly five characters, two digits, a colon and two digits, from
    which the hour and the minute can be read back; two different times
    of the day are never shown alike. *)
Theorem formatTime_fixed_width (hours minutes : N) :
  (hours < 24)%N -> (minutes < 60)%N ->
  String.length (Client.formatTime hours minutes) = 5 /\
  parse_time (Client.formatTime hours minutes) = Some (hours, minutes) /\
  (forall h' m', (h' < 24)%N -> (m' < 60)%N ->
     Client.formatTime h' m' = Client.formatTime hours minutes ->
     h' = hours /\ m' = minutes).
Proof.
  assert (Hrt : forall h m, (h < 24)%N -> (m < 60)%N ->
                  parse_time (Client.formatTime h m) = Some (h, m)).
  { intros h m Hh Hm.
    pose proof time_round_trip_day as H.
    rewrite forallb_forall in H.
    specialize (H (N.to_nat h)). rewrite in_seq in H.
    assert (H' := H ltac:(lia)). clear H.
    rewrite forallb_forall in H'.
    specialize (H' (N.to_nat m)). rewrite in_seq in H'.
    assert (H := H' ltac:(lia)). clear H'.
    unfold time_round_trip in H. rewrite !N2Nat.id in H.
    destruct (parse_time (Client.formatTime h m)) as [[a b]|];
      [|discriminate].
    apply andb_true_iff in H. destruct H as [Ha Hb].
    apply N.eqb_eq in Ha, Hb. now subst. }
  intros Hh Hm. split; [|split].
  - apply (parse_time_length _ _ (Hrt hours minutes Hh Hm)).
  - now apply Hrt.
  - intros h' m' Hh' Hm' E.
    pose proof (Hrt h' m' Hh' Hm') as H1. rewrite E in H1.
    rewrite (Hrt hours minutes Hh Hm) in H1. now injection H1.
Qed.

(** Five past nine. *)
Lemma formatTime_fixed_width_witness :
  parse_time (Client.formatTime 9 5) = Some (9%N, 5%N).
Proof.
  refine (proj1 (proj2 (formatTime_fixed_width 9 5 _ _))); reflexivity.
Defined.

(** ** Who is online, as the client sees it *)

Lemma mirror_get_None us k :
  JsMap.get k us = None -> JsMap.get k (mirror us) = None.
Proof.
  induction us as [|[k' u] us IH]; simpl; auto.
  destruct (String.eqb k k'); [discriminate|auto].
Qed.

Lemma fold_set_mirror (l acc : JsMap.t User.t) :
  NoDup (JsMap.keys (acc ++ l)) ->
  (forall k u, In (k, u) l -> User.id u = k) ->
  fold_left (fun m user => JsMap.set (OnlineUser.id user) user m)
            (map online_user (JsMap.values l)) (mirror acc)
  = mirror (acc ++ l).
Proof.
  revert acc. induction l as [|[k u] l IH]; intros acc Hnd Hid.
  - simpl. now rewrite app_nil_r.
  - simpl. rewrite (Hid k u) by (left; reflexivity).
    rewrite JsMapFacts.set_fresh.
    + change (mirror acc ++ [(k, online_user u)])
        with (mirror acc ++ mirror [(k, u)]).
      unfold mirror at 1 2. rewrite <- map_app. fold (mirror (acc ++ [(k, u)])).
      rewrite IH.
      * now rewrite <- app_assoc.
      * now rewrite <- app_assoc.
      * intros k0 u0 H. apply Hid. now right.
    + apply mirror_get_None. apply jsmap_get_None_keys.
      unfold JsMap.keys in *. rewrite map_app in Hnd. simpl in Hnd.
      apply NoDup_remove_2 in Hnd. intros H. apply Hnd.
      apply in_or_app. now left.
Qed.

Lemma inbox_app sid es es' : inbox sid (es ++ es') = inbox sid es ++ inbox sid es'.
Proof. unfold inbox. now rewrite filter_app, map_app. Qed.

Lemma existsb_eqb_In sid l : existsb (String.eqb sid) l = true <-> In sid l.
Proof.
  rewrite existsb_exists. split.
  - intros (x & Hx & E). apply String.eqb_eq in E. now subst.
  - intros H. exists sid. split; auto. apply String.eqb_refl.
Qed.

(** X19: in every reachable world, when a connected socket without a
    user record logs in with a non-empty string name and a credential, the
    events it receives make its client's [onlineUsers] map, whatever it
    held, the mirror of the server's registry after the login, in
    registration order and with itself last; every other connected socket
    receives [user_connected] alone, which leaves its client's map as it
    was, so that the newcomer is not added to the lists of the clients
    already online. *)
Theorem client_list_mirrors_registry_at_login (w : World) (sid : string)
    (env : Env) (data : value) (s : string) :
  reachable w ->
  connected sid w = true ->
  JsMap.get sid (users w) = None ->
  nullish data = false ->
  get_field data "username" = VStr s ->
  s <> "" ->
  truthy (get_field data "publicKey") = true ->
  let w' := after (on_user_login sid env data) w in
  let new := skipn (List.length (outbox w)) (outbox w') in
  (forall mine,
     fold_left ClientState.receive (inbox sid new) mine = mirror (users w') /\
     JsMap.keys (mirror (users w')) = JsMap.keys (users w) ++ [sid]) /\
  (forall other theirs,
     other <> sid -> In other (sockets w) ->
     inbox other new
       = [user_connected sid (VStr s) (date_iso env)
                         (JsMap.size (users w'))] /\
     fold_left ClientState.receive (inbox other new) theirs = theirs).
Proof.
  intros Hr Hc Hu Hn Hs Hne Hp w' new. subst new w'. unfold after.
  pose proof (reachable_wf w Hr) as Hwf.
  rewrite (on_user_login_accepts sid env data w s Hn Hs Hne Hp).
  cbn [snd login_world outbox users].
  rewrite skipn_app, skipn_all, Nat.sub_diag. cbn [app skipn].
  set (u := User.mk sid (trim s) (get_field data "publicKey") sid
                    (date_now env)).
  assert (Hwf' : wf (login_world sid env s (get_field data "publicKey") w))
    by (apply login_world_wf; auto; now apply connected_In).
  assert (Hin : existsb (String.eqb sid) (sockets w) = true) by exact Hc.
  split.
  - intros mine. split.
    + unfold login_emissions, inbox, to_all, to_socket.
      cbn [filter receivers]. rewrite Hin.
      cbn [existsb]. rewrite String.eqb_refl. cbn [orb map event fold_left].
      cbn [ClientState.receive].
      apply (fold_set_mirror (JsMap.set sid u (users w)) []).
      * simpl. apply (wf_users_keys _ Hwf').
      * intros k u0 Hk. eapply (wf_users_id _ Hwf'). simpl.
        apply jsmap_In_get; auto. apply (wf_users_keys _ Hwf').
    + rewrite (JsMapFacts.set_fresh (users w) sid u Hu).
      unfold mirror, JsMap.keys. rewrite map_map. simpl.
      rewrite map_app. reflexivity.
  - intros other theirs Hother Hino.
    assert (E1 : existsb (String.eqb other) (sockets w) = true)
      by now apply existsb_eqb_In.
    assert (E2 : existsb (String.eqb other) [sid] = false).
    { simpl. apply String.eqb_neq in Hother. now rewrite Hother. }
    unfold login_emissions, inbox, to_all, to_socket.
    cbn [filter receivers]. rewrite E1, E2. split; reflexivity.
Qed.

(** Bob logs in while alice is online: his list holds both, hers is not
    touched. *)
Lemma client_list_mirrors_registry_at_login_witness :
  let w' := after (on_user_login "B" env1 (login_data "bob" "pk-b"))
                  alice_and_guest in
  let new := skipn (List.length (outbox alice_and_guest)) (outbox w') in
  JsMap.keys (fold_left ClientState.receive (inbox "B" new) JsMap.empty)
    = ["A"; "B"] /\
  fold_left ClientState.receive (inbox "A" new)
            (mirror (users alice_and_guest))
    = mirror (users alice_and_guest).
Proof.
  destruct (client_list_mirrors_registry_at_login alice_and_guest "B" env1
              (login_data "bob" "pk-b") "bob") as [H1 H2].
  - exists [Connect "A"; Connect "B";
            UserLogin "A" env0 (login_data "alice" "pk-a")].
    reflexivity.
  - reflexivity.
  - reflexivity.
  - reflexivity.
  - reflexivity.
  - discriminate.
  - reflexivity.
  - split.
    + destruct (H1 JsMap.empty) as [E K]. cbv zeta. rewrite E. exact K.
    + apply (H2 "A"); [discriminate|simpl; auto].
Defined.

(** ** Sending through the client *)

Lemma encryptMessage_cases rsa onlineUsers message :
  ClientState.encryptMessage rsa onlineUsers message = VBool false \/
  exists payload,
    ClientState.encryptMessage rsa onlineUsers message = VStr payload.
Proof.
  unfold ClientState.encryptMessage.
  destruct (JsMap.values onlineUsers) as [|r l]; [eauto|].
  destruct (negb (truthy (OnlineUser.publicKey r))); [eauto|].
  destruct (rsa (OnlineUser.publicKey r) message); eauto.
Qed.

(** X20: what [sendMessage] emits is always accepted by the server: if
    the client whose [currentUser] holds the name registered for its
    socket emits [send_message], then in every reachable world the
    handler of the server runs to completion, and the message it stores
    last carries a string payload, the one the client sent, under the
    registered name.  When the client's list of online users is empty the
    payload is the trimmed text itself, unencrypted. *)
Theorem client_send_is_accepted
    (rsa_encrypt : value -> string -> option string)
    (input recipientSelect : string) (socket_connected : bool)
    (name : string) (onlineUsers : JsMap.t OnlineUser.t) (iso : string)
    (data : value) (w : World) (sid : string) (env : Env) (u : User.t) :
  ClientState.sendMessage rsa_encrypt input recipientSelect socket_connected
                          (Some name) onlineUsers iso
    = ClientState.SendEmit data ->
  reachable w ->
  JsMap.get sid (users w) = Some u ->
  User.username u = name ->
  fst (on_send_message sid env data w) = Normal tt /\
  (exists older m payload,
     messageHistory (after (on_send_message sid env data) w) = older ++ [m] /\
     Message.encryptedMessage m = VStr payload /\
     get_field data "encryptedMessage" = VStr payload /\
     payload <> "" /\
     Sender.id (Message.sender m) = sid /\
     Sender.username (Message.sender m) = VStr (User.username u)) /\
  (JsMap.values onlineUsers = [] ->
   get_field data "encryptedMessage" = VStr (trim input)).
Proof.
  unfold ClientState.sendMessage. intros H Hr Hu Hname.
  destruct (negb (truthy (VStr (trim input)))); [discriminate|].
  destruct (negb socket_connected); [discriminate|].
  destruct (negb (truthy (ClientState.encryptMessage rsa_encrypt onlineUsers
                                                     (trim input)))) eqn:Ht;
    [discriminate|].
  injection H as <-. apply negb_false_iff in Ht.
  pose proof (reachable_wf w Hr) as Hwf.
  set (enc := ClientState.encryptMessage rsa_encrypt onlineUsers (trim input))
    in *.
  set (data := VObj [("encryptedMessage", enc);
                     ("recipientId", js_or (VStr recipientSelect) VNull);
                     ("senderUsername", VStr name);
                     ("timestamp", VStr iso)]).
  assert (Henc : get_field data "encryptedMessage" = enc) by reflexivity.
  assert (Hsu : get_field data "senderUsername" = VStr name) by reflexivity.
  destruct (encryptMessage_cases rsa_encrypt onlineUsers (trim input))
    as [E|[payload E]]; fold enc in E; [rewrite E in Ht; discriminate|].
  destruct (send_registered w sid env data u Hwf eq_refl Hu)
    as (Hw & Hok & _).
  split; [apply Hok; rewrite Henc, E; reflexivity|].
  split.
  - rewrite Hw. cbn [sent_world messageHistory].
    destruct (store_last
                (messageObj env sid u (get_field data "senderUsername")
                            (get_field data "encryptedMessage"))
                (messageHistory w)) as [older Ho].
    exists older. eexists. exists payload.
    split; [exact Ho|].
    rewrite Hsu, Henc, E. cbn [messageObj Message.encryptedMessage
      Message.sender Sender.id Sender.username].
    repeat split.
    + intros ->. rewrite E in Ht. discriminate.
    + unfold js_or. rewrite <- Hname.
      destruct (truthy (VStr (User.username u))); reflexivity.
  - intros Hempty. rewrite Henc. unfold enc, ClientState.encryptMessage.
    now rewrite Hempty.
Qed.

(** Alice, alone and with an empty list, sends "hi": it is stored as
    typed. *)
Lemma client_send_is_accepted_witness :
  fst (on_send_message "A" env1
         (VObj [("encryptedMessage", VStr "hi"); ("recipientId", VNull);
                ("senderUsername", VStr "alice");
                ("timestamp", VStr "2023-11-14T22:13:21.000Z")])
         alice_online) = Normal tt.
Proof.
  refine (proj1
    (client_send_is_accepted (fun _ _ => None) " hi " "" true "alice"
       JsMap.empty "2023-11-14T22:13:21.000Z" _ alice_online "A" env1
       (User.mk "A" "alice" (VStr "pk-a") "A" (date_now env0)) _ _ _ _)).
  - reflexivity.
  - exists [Connect "A"; UserLogin "A" env0 (login_data "alice" "pk-a")].
    reflexivity.
  - reflexivity.
  - reflexivity.
Defined.

(** ** Joining through the client of the second variant *)

Lemma clone_round_trip_users (w : CloneServer.World) sid username :
  JsMap.get sid (CloneServer.users w) = None ->
  truthy username = true ->
  CloneServer.users
    (CloneServer.disconnect sid (CloneServer.on_join sid username w))
  = CloneServer.users w.
Proof.
  intros Hu Ht.
  unfold CloneServer.disconnect, CloneServer.on_disconnect,
    CloneServer.users_get, CloneServer.on_join, CloneServer.emit.
  cbn [CloneServer.users CloneServer.sockets CloneServer.outbox].
  rewrite JsMapFacts.get_set_eq, Ht.
  cbn [CloneServer.users CloneServer.sockets CloneServer.outbox].
  now apply jsmap_delete_set_fresh.
Qed.

(** X21: [joinChat] emits [join] exactly when the trimmed text of the
    name field is not empty, and then with that trimmed text; a name
    emitted by [joinChat] is therefore always removed again by the server
    when the socket disconnects. *)
Theorem clone_client_join_is_undone (input : string) :
  (CloneClient.joinChat input = None <-> trim input = "") /\
  (forall username w sid,
     CloneClient.joinChat input = Some username ->
     JsMap.get sid (CloneServer.users w) = None ->
     username = VStr (trim input) /\
     CloneServer.users
       (CloneServer.disconnect sid (CloneServer.on_join sid username w))
     = CloneServer.users w).
Proof.
  unfold CloneClient.joinChat. simpl truthy.
  destruct (String.eqb_spec (trim input) "") as [E|E]; simpl.
  - split; [tauto|]. intros; discriminate.
  - split; [split; [discriminate|contradiction]|].
    intros username w sid [= <-] Hu. split; [reflexivity|].
    apply clone_round_trip_users; auto.
    simpl. apply String.eqb_neq in E. now rewrite E.
Qed.

(** Bob joins through the client and leaves. *)
Lemma clone_client_join_is_undone_witness :
  VStr "bob" = VStr (trim " bob ") /\
  CloneServer.users
    (CloneServer.disconnect "B"
       (CloneServer.on_join "B" (VStr "bob") clone_two_sockets))
  = CloneServer.users clone_two_sockets.
Proof.
  refine (proj2 (clone_client_join_is_undone " bob ") (VStr "bob")
                clone_two_sockets "B" _ _).
  - reflexivity.
  - reflexivity.
Defined.

(** * Round trips and the shape of the history *)

Lemma store_shape m h :
  exists dropped kept,
    h = dropped ++ kept /\ store m h = kept ++ [m] /\
    List.length dropped <= 1.
Proof.
  unfold store, push, shift.
  destruct (100 <? List.length (h ++ [m]))%nat eqn:E.
  - destruct h as [|x h]; [simpl in E; discriminate|].
    exists [x], h. simpl. auto.
  - exists [], h. simpl. auto.
Qed.

Lemma on_send_message_history_shape sid env data w :
  exists dropped kept added,
    messageHistory w = dropped ++ kept /\
    messageHistory (after (on_send_message sid env data) w) = kept ++ added /\
    List.length dropped <= List.length added <= 1.
Proof.
  assert (Hsame : forall w',
            messageHistory w' = messageHistory w ->
            exists dropped kept added,
              messageHistory w = dropped ++ kept /\
              messageHistory w' = kept ++ added /\
              List.length dropped <= List.length added <= 1).
  { intros w' E. exists [], (messageHistory w), [].
    rewrite E, app_nil_r. simpl. auto. }
  unfold after. destruct (nullish data) eqn:Hn.
  { destruct (on_send_message_nullish sid env data w Hn) as [e ->].
    now apply Hsame. }
  destruct (truthy_id_cases (JsMap.get sid (userSessions w)))
    as [Hs|(s & Hs & Hne)].
  { rewrite on_send_message_no_session by auto. now apply Hsame. }
  destruct (JsMap.get s (users w)) as [u|] eqn:Hu.
  - destruct (on_send_message_registered sid env data w s u Hn Hs Hne Hu)
      as [-> _].
    cbn [sent_world messageHistory].
    destruct (store_shape
                (messageObj env s u (get_field data "senderUsername")
                            (get_field data "encryptedMessage"))
                (messageHistory w)) as (dropped & kept & H1 & H2 & H3).
    exists dropped, kept. eexists. split; [exact H1|].
    split; [exact H2|]. simpl. lia.
  - rewrite (on_send_message_no_sender sid env data w s) by auto.
    now apply Hsame.
Qed.

(** X22: whatever the world and the request, one step of the server
    never alters or reorders the stored messages: the new history is the
    old one, less at most its first entry, followed by at most one new
    message, and an entry is dropped only when one is added. *)
Theorem history_only_shifts_and_appends (w : World) (r : Request) :
  exists dropped kept added,
    messageHistory w = dropped ++ kept /\
    messageHistory (step w r) = kept ++ added /\
    List.length dropped <= List.length added <= 1.
Proof.
  assert (Hsame : forall w',
            messageHistory w' = messageHistory w ->
            exists dropped kept added,
              messageHistory w = dropped ++ kept /\
              messageHistory w' = kept ++ added /\
              List.length dropped <= List.length added <= 1).
  { intros w' E. exists [], (messageHistory w), [].
    rewrite E, app_nil_r. simpl. auto. }
  destruct r as [sid|sid env data|sid env data|sid|sid|sid|sid env]; simpl.
  - destruct (String.eqb sid "" || connected sid w); now apply Hsame.
  - destruct (connected sid w); [|now apply Hsame].
    apply Hsame. apply on_user_login_frame.
  - destruct (connected sid w); [|now apply Hsame].
    apply on_send_message_history_shape.
  - destruct (connected sid w); [|now apply Hsame].
    apply Hsame. apply on_user_typing_same_state.
  - destruct (connected sid w); [|now apply Hsame].
    apply Hsame. apply on_user_stopped_typing_same_state.
  - destruct (connected sid w); now apply Hsame.
  - destruct (connected sid w); [|now apply Hsame].
    apply Hsame.
    destruct (on_disconnect_frame sid env (set_sockets (without sid) w))
      as [_ ->]. reflexivity.
Qed.

(** X23: in every reachable world, an accepted [user_login] on a
    connected socket without a user record, followed by the disconnection
    of that socket, gives back the registry, the sessions and the history
    exactly as they were. *)
Theorem login_disconnect_round_trip (w : World) (sid : string)
    (env env' : Env) (data : value) (s : string) :
  reachable w ->
  connected sid w = true ->
  JsMap.get sid (users w) = None ->
  nullish data = false ->
  get_field data "username" = VStr s ->
  s <> "" ->
  truthy (get_field data "publicKey") = true ->
  let w1 := step w (UserLogin sid env data) in
  let w2 := step w1 (Disconnect sid env') in
  JsMap.get sid (users w1) <> None /\
  users w2 = users w /\
  userSessions w2 = userSessions w /\
  messageHistory w2 = messageHistory w /\
  sockets w2 = without sid (sockets w).
Proof.
  intros Hr Hc Hu Hn Hs Hne Hp w1 w2.
  pose proof (reachable_wf w Hr) as Hwf.
  pose proof (reachable_registry_inv w Hr) as Hinv.
  assert (Hss : JsMap.get sid (userSessions w) = None).
  { destruct (JsMap.get sid (userSessions w)) as [v|] eqn:E; auto.
    destruct (inv_session_user w Hinv sid v E) as [u Hu']. congruence. }
  assert (Hsid : sid <> "").
  { intros ->. apply (wf_socket_ids w Hwf). now apply connected_In. }
  assert (Hw1 : w1 = login_world sid env s (get_field data "publicKey") w).
  { subst w1. simpl. rewrite Hc. unfold after.
    now rewrite (on_user_login_accepts sid env data w s Hn Hs Hne Hp). }
  assert (Hc1 : connected sid w1 = true) by (rewrite Hw1; exact Hc).
  assert (Hw2 : w2 = disconnected_world sid env'
                       (set_sockets (without sid) w1)).
  { subst w2. simpl. rewrite Hc1. apply on_disconnect_session; auto.
    rewrite Hw1. simpl. apply JsMapFacts.get_set_eq. }
  clearbody w1 w2. subst w1 w2. unfold disconnected_world.
  cbn [set_sockets login_world users userSessions sockets messageHistory
       outbox].
  rewrite JsMapFacts.get_set_eq.
  cbn [users userSessions sockets messageHistory].
  rewrite !jsmap_delete_set_fresh by auto.
  split; [discriminate|]. repeat split.
Qed.

(** Bob logs in and leaves while alice is online. *)
Lemma login_disconnect_round_trip_witness :
  users (step (step alice_and_guest
                    (UserLogin "B" env1 (login_data "bob" "pk-b")))
              (Disconnect "B" env1))
    = users alice_and_guest.
Proof.
  refine (proj1 (proj2
    (login_disconnect_round_trip alice_and_guest "B" env1 env1
       (login_data "bob" "pk-b") "bob" _ _ _ _ _ _ _))).
  - exists [Connect "A"; Connect "B";
            UserLogin "A" env0 (login_data "alice" "pk-a")].
    reflexivity.
  - reflexivity.
  - reflexivity.
  - reflexivity.
  - reflexivity.
  - discriminate.
  - reflexivity.
Defined.
